(** * SAGA runtime over Kafka: retry stages, DLQ replay, idempotent worker, gateway cache

    A shallow embedding of the Go programs of the repository that make up the
    choreography runtime:

    - [Retry], [Processor], [RetryWorker], [Pipeline]: the Sarama demo
      (internal/retry/retry.go, cmd/processor, cmd/retryworker);
    - [SagaLab]: the step service and the DLQ replayer of the saga lab
      (pkg/common);
    - [Worker]: the consumer service of the REST web service (MySQL
      transaction, idempotency keys, saga log, ack produce);
    - [Gateway]: the API server of the REST web service (result cache,
      long-poll handler, ack consumer).
    - [Handlers]: the HTTP handlers of the API server that enqueue commands;
    - [Topics]: the topics cmd/admin creates and the delays and
      subscriptions of the retry worker and the processor;
    - [Tracing]: the header carrier of internal/tracing.

    Byte slices are modelled as [string]: the programs only convert them to
    strings, compare them and pass them on.  Go's [int] and [int64] are [Z];
    the places where a value could leave the 64-bit range are noted. *)

From Stdlib Require Import ZArith Ascii String.
From stdpp Require Import gmap strings list pretty.

Open Scope string_scope.
Open Scope list_scope.
Open Scope Z_scope.

(** ** Go runtime helpers *)

(** A computation that may panic (index out of range and the like). *)
Inductive go (A : Type) : Type :=
| Ret (a : A)
| Panic (reason : string).
Arguments Ret {A} a.
Arguments Panic {A} reason.

Module strconv.

Definition is_digit (c : ascii) : bool :=
  let n := Z.of_nat (nat_of_ascii c) in (48 <=? n) && (n <=? 57).

Definition digit_value (c : ascii) : Z := Z.of_nat (nat_of_ascii c) - 48.

(** The digit loop of [strconv.Atoi] / [strconv.ParseInt] in base 10:
    every byte must be a decimal digit. *)
Fixpoint digits (s : string) (acc : Z) : option Z :=
  match s with
  | EmptyString => Some acc
  | String c rest =>
      if is_digit c then digits rest (acc * 10 + digit_value c) else None
  end.

Definition minInt64 : Z := - 2 ^ 63.
Definition maxInt64 : Z := 2 ^ 63 - 1.

(** An optional sign followed by at least one digit; [None] is Go's
    syntax error. *)
Definition signed_digits (s : string) : option Z :=
  match s with
  | EmptyString => None
  | String c rest =>
      if decide (c = "-"%char) then
        match rest with
        | EmptyString => None
        | _ => Z.opp <$> digits rest 0
        end
      else if decide (c = "+"%char) then
        match rest with
        | EmptyString => None
        | _ => digits rest 0
        end
      else digits s 0
  end.

(** [strconv.Atoi]: [Some n] when [err == nil].  A value outside the
    64-bit range is a range error. *)
Definition Atoi (s : string) : option Z :=
  match signed_digits s with
  | Some n => if (minInt64 <=? n) && (n <=? maxInt64) then Some n else None
  | None => None
  end.

(** [strconv.ParseInt(s, 10, 64)] as the callers use it, with the error
    dropped ([id, _ := ...]): 0 on a syntax error, the nearest bound on a
    range error. *)
Definition ParseInt_value (s : string) : Z :=
  match signed_digits s with
  | Some n =>
      if n <? minInt64 then minInt64
      else if maxInt64 <? n then maxInt64
      else n
  | None => 0
  end.

(** [n, _ := strconv.Atoi(s)]: the value with the error dropped, as for
    [ParseInt]. *)
Definition Atoi_value (s : string) : Z := ParseInt_value s.

(** [strconv.Itoa] and the [%d] verb. *)
Definition Itoa (n : Z) : string := pretty n.

End strconv.

(** ** Kafka records *)

Record RecordHeader : Type := mkHeader { hKey : string; hValue : string }.

(** A record as a consumer receives it. *)
Record ConsumerMessage : Type := mkConsumerMessage {
  cm_Topic : string;
  cm_Offset : Z;
  cm_Key : string;
  cm_Value : string;
  cm_Headers : list RecordHeader
}.

(** A record as handed to a producer; [V] is the type of the value before
    it is serialised ([string] for bytes passed through unchanged). *)
Record ProducerMessage (V : Type) : Type := mkProducerMessage {
  pm_Topic : string;
  pm_Key : string;
  pm_Value : V;
  pm_Headers : list RecordHeader
}.
Arguments mkProducerMessage {V} _ _ _ _.
Arguments pm_Topic {V} _.
Arguments pm_Key {V} _.
Arguments pm_Value {V} _.
Arguments pm_Headers {V} _.

#[global] Instance RecordHeader_eq_dec : EqDecision RecordHeader.
Proof. solve_decision. Defined.

(** The value of the last header named [k], as a loop that overwrites its
    result on every match computes it. *)
Definition last_header (k : string) (hs : list RecordHeader) : option string :=
  foldl (fun acc h => if decide (hKey h = k) then Some (hValue h) else acc) None hs.

(** ** The retry stages (internal/retry/retry.go) *)

Module Retry.

Definition HeaderAttempt : string := "x-retry-attempt".
Definition HeaderError : string := "x-error".

(** [Delay] in nanoseconds, as [time.Duration]. *)
Record Stage : Type := mkStage { Topic : string; Delay : Z }.

Definition second : Z := 1000000000.
Definition minute : Z := 60 * second.

Definition Stages : list Stage :=
  [ mkStage "events.v1.retry.5s" (5 * second);
    mkStage "events.v1.retry.30s" (30 * second);
    mkStage "events.v1.retry.2m" (2 * minute) ].

(** [Next]: the stage for [attempt] and [true], or the zero stage and
    [false].  Indexing [Stages] with a negative [attempt] panics. *)
Definition Next (attempt : Z) : go (Stage * bool) :=
  if attempt <? Z.of_nat (length Stages) then
    if attempt <? 0 then Panic "index out of range"
    else match Stages !! Z.to_nat attempt with
         | Some st => Ret (st, true)
         | None => Panic "index out of range"
         end
  else Ret (mkStage "" 0, false).

End Retry.

(** ** The processor (cmd/processor/main.go) *)

Module Processor.

Definition MainTopic : string := "events.v1".
Definition DLQTopic : string := "events.v1.dlq".

(** [parseAttempt]: the value of the first [x-retry-attempt] header that
    parses as an integer, 0 when there is none. *)
Fixpoint parseAttempt_headers (hs : list RecordHeader) : Z :=
  match hs with
  | [] => 0
  | h :: rest =>
      if decide (hKey h = Retry.HeaderAttempt) then
        match strconv.Atoi (hValue h) with
        | Some n => n
        | None => parseAttempt_headers rest
        end
      else parseAttempt_headers rest
  end.

Definition parseAttempt (msg : ConsumerMessage) : Z :=
  parseAttempt_headers (cm_Headers msg).

(** Whether some [x-retry-attempt] header of [hs] parses. *)
Definition has_attempt (hs : list RecordHeader) : bool :=
  existsb (fun h => bool_decide (hKey h = Retry.HeaderAttempt)
                    && bool_decide (is_Some (strconv.Atoi (hValue h)))) hs.

(** [publishNextRetry]: the record handed to [prod.SendMessage]; [err] is
    [err.Error()].  The result of the send is the caller's concern. *)
Definition publishNextRetry (msg : ConsumerMessage) (err : string)
  : go (ProducerMessage string) :=
  let attempt := parseAttempt msg in
  match Retry.Next attempt with
  | Panic r => Panic r
  | Ret (stage, true) =>
      Ret (mkProducerMessage (Retry.Topic stage) (cm_Key msg) (cm_Value msg)
             (cm_Headers msg ++
                [ mkHeader Retry.HeaderAttempt (strconv.Itoa (attempt + 1));
                  mkHeader Retry.HeaderError err ]))
  | Ret (_, false) =>
      Ret (mkProducerMessage DLQTopic (cm_Key msg) (cm_Value msg)
             (cm_Headers msg ++
                [ mkHeader Retry.HeaderAttempt (strconv.Itoa attempt);
                  mkHeader Retry.HeaderError err ]))
  end.

(** [businessLogic]: [Some e] is the error returned; the demo fails on a
    payload that starts with "fail:". *)
Definition businessLogic (msg : ConsumerMessage) : option string :=
  if (5 <=? Z.of_nat (String.length (cm_Value msg)))
     && bool_decide (substring 0 5 (cm_Value msg) = "fail:")
  then Some "downstream: simulated failure"
  else None.

(** What one iteration of [ConsumeClaim] does with [msg]; [send_ok] is
    whether [SendMessage] succeeds. *)
Inductive Handled : Type :=
| Processed                                   (* marked, nothing published *)
| Forwarded (out : ProducerMessage string)    (* published and marked "forwarded" *)
| PublishFailed (out : ProducerMessage string) (* not marked *)
| Crashed (reason : string).

Definition handle (send_ok : bool) (msg : ConsumerMessage) : Handled :=
  match businessLogic msg with
  | None => Processed
  | Some err =>
      match publishNextRetry msg err with
      | Panic r => Crashed r
      | Ret out => if send_ok then Forwarded out else PublishFailed out
      end
  end.

End Processor.

(** ** The retry worker (cmd/retryworker/main.go) *)

Module RetryWorker.

(** The record the worker produces for [msg] after its delay: back to the
    main topic, headers kept. *)
Definition requeue (msg : ConsumerMessage) : ProducerMessage string :=
  mkProducerMessage Processor.MainTopic (cm_Key msg) (cm_Value msg) (cm_Headers msg).

End RetryWorker.

(** A record of topic [pm_Topic out] as its consumer sees it at [offset]. *)
Definition delivered (offset : Z) (out : ProducerMessage string) : ConsumerMessage :=
  mkConsumerMessage (pm_Topic out) offset (pm_Key out) (pm_Value out) (pm_Headers out).

(** ** A failing record on its way through the retry topics *)

Module Pipeline.

(** The records the processor publishes for [msg] over at most [n]
    deliveries when every send succeeds and the retry worker requeues each
    retry record to the main topic: the journey ends when the business
    logic succeeds, when a record reaches the DLQ, or on a panic. *)
Fixpoint journey (n : nat) (msg : ConsumerMessage) : list (ProducerMessage string) :=
  match n with
  | O => []
  | S n' =>
      match Processor.handle true msg with
      | Processor.Forwarded out =>
          out ::
            (if decide (pm_Topic out = Processor.DLQTopic) then []
             else journey n' (delivered 0 (RetryWorker.requeue (delivered 0 out))))
      | _ => []
      end
  end.

(** What a published record shows of its hop: its topic, the attempt the
    processor reads from it on its next delivery, and the attempt header
    written last. *)
Definition hop (out : ProducerMessage string) : string * Z * option string :=
  (pm_Topic out, Processor.parseAttempt (delivered 0 out),
   last_header Retry.HeaderAttempt (pm_Headers out)).

(** The second record of the demo producer (cmd/producer/main.go). *)
Definition demo_failing : ConsumerMessage :=
  mkConsumerMessage "events.v1" 1 "user-42" "fail: simulate downstream error"
    [ mkHeader "content-type" "text/plain" ].

(** The state of a failing record from its second delivery on. *)
Definition stuck (msg : ConsumerMessage) : Prop :=
  Processor.businessLogic msg = Some "downstream: simulated failure"
  /\ Processor.has_attempt (cm_Headers msg) = true
  /\ Processor.parseAttempt msg = 1.

End Pipeline.

(** ** JSON values and decoders *)

(** A value of Go's [any] as the programs read and write it in a payload
    map: a string, an [int64], or anything else (kept as its text). *)
Inductive any : Type :=
| AString (s : string)
| AInt64 (n : Z)
| AOther (raw : string).

#[global] Instance any_eq_dec : EqDecision any.
Proof. solve_decision. Defined.

(** [v, _ := payload[k].(string)]: the empty string when the key is absent
    or its value is not a string. *)
Definition payload_string (payload : gmap string any) (k : string) : string :=
  match payload !! k with
  | Some (AString s) => s
  | _ => ""
  end.

(** A decoder given by its graph on finitely many inputs, [None] (an error)
    elsewhere; used to run the programs on sample records. *)
Fixpoint decode_table {A : Type} (tbl : list (string * A)) (raw : string) : option A :=
  match tbl with
  | [] => None
  | (k, a) :: rest => if decide (k = raw) then Some a else decode_table rest raw
  end.

(** ** The saga lab (pkg/common) *)

Module SagaLab.

(** [Ts] is a [time.Time], in nanoseconds since the Unix epoch. *)
Record Event : Type := mkEvent {
  SagaID : string;
  Step : Z;
  SchemaVersion : Z;
  Ts : Z;
  Payload : gmap string any
}.

Definition HeaderSagaID : string := "x-saga-id".
Definition HeaderOriginalTopic : string := "x-original-topic".

Definition set_Step (evt : Event) (step : Z) : Event :=
  mkEvent (SagaID evt) step (SchemaVersion evt) (Ts evt) (Payload evt).

Definition has_prefix (s p : string) : bool := String.prefix p s.

(** [Process]: (next event, is fatal).  [coin] is the outcome of
    [rand.Float64() < p] in the flaky mode; metrics and sleeps are left
    out.  [step + 1] is within range for every step a deployment uses. *)
Definition Process (step : Z) (failMode : string) (coin : bool) (evt : Event)
  : Event * bool :=
  let next := set_Step evt (step + 1) in
  if negb (bool_decide (step = 5)) || bool_decide (failMode = "")
     || bool_decide (failMode = "none")
  then (next, false)
  else if has_prefix failMode "flaky:" then
    if coin then (evt, false) else (next, false)
  else if bool_decide (failMode = "retryable") then (evt, false)
  else if bool_decide (failMode = "fatal") then (evt, true)
  else (next, false).

(** The environment variables [RunStepService] reads. *)
Record StepEnv : Type := mkStepEnv {
  KAFKA_BROKERS : string;
  TOPIC_IN : string;
  TOPIC_OUT : string;
  DLQ_TOPIC : string;
  GROUP_ID : string;
  STEP : string;
  FAIL_MODE : string
}.

(** The check at the start of [RunStepService]; [false] is the
    "missing required envs" error. *)
Definition step_env_ok (env : StepEnv) : bool :=
  negb (bool_decide (KAFKA_BROKERS env = "") || bool_decide (TOPIC_IN env = "")
        || bool_decide (TOPIC_OUT env = "") || bool_decide (GROUP_ID env = "")
        || bool_decide (STEP env = "") || bool_decide (DLQ_TOPIC env = "")).

(** What one iteration of the service loop hands to the writer. *)
Inductive StepAction : Type :=
| BadJSON
| ToDLQ (msg : ProducerMessage Event)
| ToNext (msg : ProducerMessage Event).

(** The environment variables [RunDLQReplayer] reads. *)
Record ReplayEnv : Type := mkReplayEnv {
  r_KAFKA_BROKERS : string;
  r_DLQ_TOPIC : string;
  r_GROUP_ID : string;
  REPLAY_TARGET : string;
  SAGA_ID_FILTER : string
}.

Definition replay_env_ok (env : ReplayEnv) : bool :=
  negb (bool_decide (r_KAFKA_BROKERS env = "") || bool_decide (r_DLQ_TOPIC env = "")
        || bool_decide (r_GROUP_ID env = "")).

(** What the broker sees of one iteration of the replayer.  The reader is
    created with a group id, and [ReadMessage] of such a reader commits
    the offset of the record before it returns it. *)
Inductive ReplayEvent : Type :=
| Committed (offset : Z)
| Replayed (out : ProducerMessage string)
| ReplayFailed (out : ProducerMessage string).

(** [orig := replayDefault], overwritten by every [x-original-topic]
    header in turn. *)
Definition replay_target (env : ReplayEnv) (m : ConsumerMessage) : string :=
  default (REPLAY_TARGET env) (last_header HeaderOriginalTopic (cm_Headers m)).

Section WithDecoder.

(** [json.Unmarshal(m.Value, &evt)] of encoding/json: [None] is an error. *)
Variable unmarshalEvent : string -> option Event.

(** One iteration of the loop of [RunStepService] on the record [m]. *)
Definition step_iter (env : StepEnv) (coin : bool) (m : ConsumerMessage) : StepAction :=
  let step := strconv.Atoi_value (STEP env) in
  match unmarshalEvent (cm_Value m) with
  | None => BadJSON
  | Some evt =>
      let '(next, fatal) := Process step (FAIL_MODE env) coin evt in
      let headers := cm_Headers m ++ [ mkHeader HeaderSagaID (SagaID evt) ] in
      if fatal then
        ToDLQ (mkProducerMessage (DLQ_TOPIC env) (cm_Key m) next
                 (headers ++ [ mkHeader HeaderOriginalTopic (TOPIC_IN env) ]))
      else
        ToNext (mkProducerMessage (TOPIC_OUT env) (cm_Key m) next headers)
  end.


(** One iteration of the loop of [RunDLQReplayer] on the record [m];
    [write_ok] is whether [WriteMessages] succeeds. *)
Definition replay_iter (env : ReplayEnv) (write_ok : bool) (m : ConsumerMessage)
  : list ReplayEvent :=
  Committed (cm_Offset m) ::
  match unmarshalEvent (cm_Value m) with
  | None => []
  | Some evt =>
      if negb (bool_decide (SAGA_ID_FILTER env = ""))
         && negb (bool_decide (SagaID evt = SAGA_ID_FILTER env))
      then []
      else
        let orig := replay_target env m in
        if bool_decide (orig = "") then []
        else
          let msg := mkProducerMessage orig (cm_Key m) (cm_Value m) (cm_Headers m) in
          if write_ok then [ Replayed msg ] else [ ReplayFailed msg ]
  end.

Definition RunDLQReplayer (env : ReplayEnv) (input : list (bool * ConsumerMessage))
  : option (list ReplayEvent) :=
  if replay_env_ok env
  then Some (concat (map (fun wm => replay_iter env (fst wm) (snd wm)) input))
  else None.

End WithDecoder.

End SagaLab.

(** ** Envelopes of the REST web service *)

Record Command : Type := mkCommand {
  c_TraceID : string;
  c_Command : string;
  c_Resource : string;
  c_Payload : gmap string any
}.

(** The anonymous [struct{ Code, Detail string }] of an ack. *)
Record ErrorInfo : Type := mkError { Code : string; Detail : string }.

Record Ack : Type := mkAck {
  a_TraceID : string;
  a_Status : string;
  a_Event : string;
  a_Payload : gmap string any;
  a_Error : option ErrorInfo
}.

#[global] Instance ErrorInfo_eq_dec : EqDecision ErrorInfo.
Proof. solve_decision. Defined.
#[global] Instance Ack_eq_dec : EqDecision Ack.
Proof. solve_decision. Defined.

(** ** The consumer service (message worker) *)

Module Worker.

(** *** The database

    The three tables as the statements of the worker see them.  Keys are
    compared as the strings they are; column widths and collations are
    outside the model. *)

Record SagaRow : Type := mkSagaRow {
  sl_trace_id : string;
  sl_step : string;
  sl_status : string;
  sl_error_code : string;
  sl_error_detail : string
}.

Record IdemRow : Type := mkIdemRow { last_status : string; ik_trace_id : string }.

Record Tables : Type := mkTables {
  messages : gmap Z string;                 (* id -> message *)
  saga_log : list SagaRow;                  (* in insertion order *)
  idempotency_keys : gmap string IdemRow    (* idempotency_key -> row *)
}.

(** The committed tables and the AUTO_INCREMENT counter of [messages];
    the counter is not part of any transaction (a rollback does not give
    ids back). *)
Record DB : Type := mkDB { tables : Tables; next_id : Z }.

(** An open transaction: its view of the tables and the counter. *)
Record Tx : Type := mkTx { view : Tables; counter : Z }.

(** The calls of one delivery that the database or the driver fails, each
    with the text of its error. *)
Record Faults : Type := mkFaults {
  f_begin : option string;   (* db.Begin *)
  f_check : option string;   (* the SELECT of checkIdempotent *)
  f_stmt : option string;    (* the statement on messages (Exec or Scan) *)
  f_saga : bool;             (* the INSERT of logSaga *)
  f_mark : option string;    (* the INSERT IGNORE of markIdempotent *)
  f_commit : option string   (* tx.Commit *)
}.

Definition no_faults : Faults := mkFaults None None None false None None.

Definition set_messages (t : Tables) (m : gmap Z string) : Tables :=
  mkTables m (saga_log t) (idempotency_keys t).

(** [checkIdempotent]: (processed, err). *)
Definition checkIdempotent (f : Faults) (tx : Tx) (key : string) : bool * option string :=
  match f_check f with
  | Some err => (false, Some err)
  | None => (bool_decide (is_Some (idempotency_keys (view tx) !! key)), None)
  end.

(** [markIdempotent]: INSERT IGNORE keeps an existing row. *)
Definition markIdempotent (f : Faults) (tx : Tx) (key traceID status : string)
  : Tx * option string :=
  match f_mark f with
  | Some err => (tx, Some err)
  | None =>
      let keys := idempotency_keys (view tx) in
      let keys' := match keys !! key with
                   | Some _ => keys
                   | None => <[ key := mkIdemRow status traceID ]> keys
                   end in
      (mkTx (mkTables (messages (view tx)) (saga_log (view tx)) keys') (counter tx), None)
  end.

(** [logSaga]: the error of the insert is dropped. *)
Definition logSaga (f : Faults) (tx : Tx) (traceID step status code detail : string) : Tx :=
  if f_saga f then tx
  else mkTx (mkTables (messages (view tx))
               (saga_log (view tx) ++ [ mkSagaRow traceID step status code detail ])
               (idempotency_keys (view tx)))
            (counter tx).

(** INSERT INTO messages(message) VALUES(?): the new id ([LastInsertId]). *)
Definition exec_insert (f : Faults) (tx : Tx) (m : string) : Tx * (string + Z) :=
  match f_stmt f with
  | Some err => (tx, inl err)
  | None =>
      let id := counter tx in
      (mkTx (set_messages (view tx) (<[ id := m ]> (messages (view tx)))) (id + 1), inr id)
  end.

(** UPDATE messages SET message=? WHERE id=?: [RowsAffected], which for
    the driver's default settings counts the rows actually changed. *)
Definition exec_update (f : Faults) (tx : Tx) (m : string) (id : Z) : Tx * (string + Z) :=
  match f_stmt f with
  | Some err => (tx, inl err)
  | None =>
      match messages (view tx) !! id with
      | Some old =>
          if decide (old = m) then (tx, inr 0)
          else (mkTx (set_messages (view tx) (<[ id := m ]> (messages (view tx)))) (counter tx),
                inr 1)
      | None => (tx, inr 0)
      end
  end.

(** DELETE FROM messages WHERE id=?: [RowsAffected]. *)
Definition exec_delete (f : Faults) (tx : Tx) (id : Z) : Tx * (string + Z) :=
  match f_stmt f with
  | Some err => (tx, inl err)
  | None =>
      match messages (view tx) !! id with
      | Some _ =>
          (mkTx (set_messages (view tx) (delete id (messages (view tx)))) (counter tx), inr 1)
      | None => (tx, inr 0)
      end
  end.

(** SELECT id, message FROM messages WHERE id=? followed by [Scan]:
    [None] when [Scan] returns an error (no row, or a failure). *)
Definition query_message (f : Faults) (tx : Tx) (id : Z) : option (Z * string) :=
  match f_stmt f with
  | Some _ => None
  | None => (fun m => (id, m)) <$> messages (view tx) !! id
  end.

(** [withTx]: begin, run [fn], roll back on its error, commit otherwise.
    [fn] also returns the variables it captured ([S]); [s0] is their value
    when the transaction cannot begin.  A failed commit leaves the tables
    as they were. *)
Definition withTx {S : Type} (db : DB) (f : Faults) (s0 : S)
    (fn : Tx -> Tx * S * option string) : DB * S * option string :=
  match f_begin f with
  | Some err => (db, s0, Some err)
  | None =>
      let '(tx', s, err) := fn (mkTx (tables db) (next_id db)) in
      match err with
      | Some e => (mkDB (tables db) (counter tx'), s, Some e)
      | None =>
          match f_commit f with
          | Some e => (mkDB (tables db) (counter tx'), s, Some e)
          | None => (mkDB (view tx') (counter tx'), s, None)
          end
      end
  end.

(** *** The handler *)

(** The variables of [ConsumeClaim] that the transaction body assigns. *)
Record Locals : Type := mkLocals {
  status : string;
  event : string;
  payload : gmap string any;
  e : option ErrorInfo
}.

Definition init_locals : Locals := mkLocals "SUCCESS" "" ∅ None.

Definition failure (l : Locals) (code detail : string) : Locals :=
  mkLocals "FAILURE" (event l) (payload l) (Some (mkError code detail)).

(** [key := string(msg.Key)], the trace id when the record has no key. *)
Definition idem_key (msg : ConsumerMessage) (cmd : Command) : string :=
  if decide (cm_Key msg = "") then c_TraceID cmd else cm_Key msg.

Definition id_detail (id : Z) : string := "id=" +:+ strconv.Itoa id.

(** The [switch cmd.Command]: the transaction, the locals, and whether the
    case returned [nil] early ([true]) or fell out of the switch. *)
Definition dispatch (f : Faults) (cmd : Command) (tx : Tx) (l : Locals)
  : Tx * Locals * bool :=
  let trace := c_TraceID cmd in
  let id := strconv.ParseInt_value (payload_string (c_Payload cmd) "id") in
  let m := payload_string (c_Payload cmd) "message" in
  if decide (c_Command cmd = "Create") then
    match exec_insert f tx m with
    | (tx1, inl err) =>
        (logSaga f tx1 trace "CreateMessage" "FAILURE" "DB_ERROR" err,
         failure l "DB_ERROR" err, true)
    | (tx1, inr new_id) =>
        (logSaga f tx1 trace "CreateMessage" "SUCCESS" "" "",
         mkLocals (status l) "MessageCreated"
           (<[ "message" := AString m ]> (<[ "id" := AInt64 new_id ]> (payload l))) (e l),
         false)
    end
  else if decide (c_Command cmd = "Read") then
    match query_message f tx id with
    | None =>
        (logSaga f tx trace "ReadMessage" "FAILURE" "NOT_FOUND" (id_detail id),
         failure l "NOT_FOUND" (id_detail id), true)
    | Some (mid, text) =>
        (logSaga f tx trace "ReadMessage" "SUCCESS" "" "",
         mkLocals (status l) "MessageRead"
           (<[ "message" := AString text ]> (<[ "id" := AInt64 mid ]> (payload l))) (e l),
         false)
    end
  else if decide (c_Command cmd = "Update") then
    match exec_update f tx m id with
    | (tx1, inl err) =>
        (logSaga f tx1 trace "UpdateMessage" "FAILURE" "DB_ERROR" err,
         failure l "DB_ERROR" err, true)
    | (tx1, inr affected) =>
        if decide (affected = 0) then
          (logSaga f tx1 trace "UpdateMessage" "FAILURE" "NOT_FOUND" (id_detail id),
           failure l "NOT_FOUND" (id_detail id), true)
        else
          (logSaga f tx1 trace "UpdateMessage" "SUCCESS" "" "",
           mkLocals (status l) "MessageUpdated"
             (<[ "message" := AString m ]> (<[ "id" := AInt64 id ]> (payload l))) (e l),
           false)
    end
  else if decide (c_Command cmd = "Delete") then
    match exec_delete f tx id with
    | (tx1, inl err) =>
        (logSaga f tx1 trace "DeleteMessage" "FAILURE" "DB_ERROR" err,
         failure l "DB_ERROR" err, true)
    | (tx1, inr affected) =>
        if decide (affected = 0) then
          (logSaga f tx1 trace "DeleteMessage" "FAILURE" "NOT_FOUND" (id_detail id),
           failure l "NOT_FOUND" (id_detail id), true)
        else
          (logSaga f tx1 trace "DeleteMessage" "SUCCESS" "" "",
           mkLocals (status l) "MessageDeleted" (<[ "id" := AInt64 id ]> (payload l)) (e l),
           false)
    end
  else (tx, failure l "UNSUPPORTED" "unknown command", false).

(** The function literal passed to [withTx]. *)
Definition tx_body (f : Faults) (msg : ConsumerMessage) (cmd : Command) (tx : Tx)
  : Tx * Locals * option string :=
  let key := idem_key msg cmd in
  match checkIdempotent f tx key with
  | (_, Some err) => (tx, init_locals, Some err)
  | (true, None) => (tx, init_locals, None)
  | (false, None) =>
      let '(tx1, l, returned) := dispatch f cmd tx init_locals in
      if returned then (tx1, l, None)
      else
        let '(tx2, err) := markIdempotent f tx1 key (c_TraceID cmd) (status l) in
        (tx2, l, err)
  end.

(** The first error of a sequence of calls, each given with its failure. *)
Fixpoint first_error (calls : list (option string)) : option string :=
  match calls with
  | [] => None
  | Some err :: _ => Some err
  | None :: rest => first_error rest
  end.

(** What the broker and the consumer-group session see of the handler. *)
Inductive Event : Type :=
| Produced (m : ProducerMessage Ack)        (* SendMessage returned nil *)
| ProduceFailed (m : ProducerMessage Ack)   (* SendMessage returned an error *)
| Marked (offset : Z).                      (* sess.MarkMessage *)

(** One record of the claim with what its processing meets: the failing
    database calls and whether the ack send succeeds. *)
Record Delivery : Type := mkDelivery {
  d_msg : ConsumerMessage;
  d_faults : Faults;
  d_send_ok : bool
}.

Section WithDecoder.

(** [json.Unmarshal(msg.Value, &cmd)] of encoding/json: [None] is an error. *)
Variable unmarshalCommand : string -> option Command.

(** The ack built after the transaction, for a decoded command. *)
Definition build_ack (cmd : Command) (l : Locals) (err : option string) : Ack :=
  match err with
  | Some txt =>
      mkAck (c_TraceID cmd) "FAILURE" "Error" (payload l) (Some (mkError "INTERNAL" txt))
  | None => mkAck (c_TraceID cmd) (status l) (event l) (payload l) (e l)
  end.

(** The body of the loop of [ConsumeClaim] for one record. *)
Definition consume_one (ackTopic : string) (db : DB) (d : Delivery) : DB * list Event :=
  let msg := d_msg d in
  match unmarshalCommand (cm_Value msg) with
  | None => (db, [])
  | Some cmd =>
      let '(db', l, err) :=
        withTx db (d_faults d) init_locals (tx_body (d_faults d) msg cmd) in
      let ackMsg := mkProducerMessage ackTopic (cm_Key msg) (build_ack cmd l err) [] in
      (db', [ if d_send_ok d then Produced ackMsg else ProduceFailed ackMsg;
              Marked (cm_Offset msg) ])
  end.

(** The idempotency key of a delivery, when its record decodes. *)
Definition key_of (d : Delivery) : option string :=
  idem_key (d_msg d) <$> unmarshalCommand (cm_Value (d_msg d)).

(** How many of the deliveries [ds], processed in order from [db], carry
    the key [k] and change the table [messages]. *)
Fixpoint effects_on_messages (ackTopic k : string) (db : DB) (ds : list Delivery) : nat :=
  match ds with
  | [] => 0%nat
  | d :: rest =>
      let db' := (consume_one ackTopic db d).1 in
      ((if bool_decide (key_of d = Some k
                        /\ messages (tables db') <> messages (tables db))
        then 1 else 0)
       + effects_on_messages ackTopic k db' rest)%nat
  end.

(** [ConsumeClaim] over the records of a claim. *)
Fixpoint ConsumeClaim (ackTopic : string) (db : DB) (ds : list Delivery)
  : DB * list Event :=
  match ds with
  | [] => (db, [])
  | d :: rest =>
      let '(db1, ev1) := consume_one ackTopic db d in
      let '(db2, ev2) := ConsumeClaim ackTopic db1 rest in
      (db2, ev1 ++ ev2)
  end.

End WithDecoder.

End Worker.

(** ** The API server (gateway) *)

Module Gateway.

(** Clock readings and expiry times are nanoseconds. *)
Definition cacheTTL : Z := 2 * Retry.minute.

(** The two package-level maps; the mutex is not modelled, every
    operation below runs as one step. *)
Record Cache : Type := mkCache {
  resultCache : gmap string Ack;
  resultExpires : gmap string Z
}.

Definition empty_cache : Cache := mkCache ∅ ∅.

(** [putAck] at clock reading [now]. *)
Definition putAck (now : Z) (a : Ack) (c : Cache) : Cache :=
  mkCache (<[ a_TraceID a := a ]> (resultCache c))
          (<[ a_TraceID a := now + cacheTTL ]> (resultExpires c)).

(** [time.Now().After(exp)] for [exp := resultExpires[id]]: a missing
    entry reads as the zero time, which every clock reading is after. *)
Definition expired (now : Z) (id : string) (c : Cache) : bool :=
  match resultExpires c !! id with
  | Some exp => exp <? now
  | None => true
  end.

(** [getAck] at clock reading [now]: [None] is [(Ack{}, false)]. *)
Definition getAck (now : Z) (id : string) (c : Cache) : option Ack :=
  match resultCache c !! id with
  | Some a => if expired now id c then None else Some a
  | None => None
  end.

(** One pass of the loop of [sweeper] at clock reading [now]. *)
Definition sweep (now : Z) (c : Cache) : Cache :=
  let dead := filter (fun kt => kt.2 < now) (resultExpires c) in
  mkCache (filter (fun ka => dead !! ka.1 = None) (resultCache c))
          (filter (fun kt => ¬ kt.2 < now) (resultExpires c)).

(** An HTTP response: the status code and the JSON body, if any. *)
Record Response : Type := mkResponse { code : Z; body : option Ack }.

Definition StatusOK : Z := 200.
Definition StatusNoContent : Z := 204.
Definition StatusGone : Z := 410.

(** The clock and the cache as one call of [getAck] finds them. *)
Record Snapshot : Type := mkSnapshot { now : Z; cache : Cache }.

(** The loop of [operationResultHandler] for [traceID]: [first] is what
    the first [getAck] finds, [rest] what the later ones find, one per
    200 ms tick that fires before the 15 s context is done; the handler
    answers 204 when the context is done first. *)
Fixpoint operationResultHandler (traceID : string) (first : Snapshot)
    (rest : list Snapshot) : Response :=
  match getAck (now first) traceID (cache first) with
  | Some a => mkResponse StatusOK (Some a)
  | None =>
      match rest with
      | [] => mkResponse StatusNoContent None
      | s :: rest' => operationResultHandler traceID s rest'
      end
  end.

(** The consumer-group session of the ack consumer: the offsets passed to
    [MarkMessage], in order. *)
Definition Session : Type := list Z.

(** The offset the group resumes from after a restart: [MarkMessage]
    records [msg.Offset + 1] when that is beyond what is recorded. *)
Definition committed_offset (initial : Z) (marks : Session) : Z :=
  foldl (fun acc o => Z.max acc (o + 1)) initial marks.

(** Whether the record at [offset] is delivered again after a restart. *)
Definition redelivered (initial : Z) (marks : Session) (offset : Z) : bool :=
  committed_offset initial marks <=? offset.

Section WithDecoder.

(** [json.Unmarshal(msg.Value, &a)] of encoding/json: [None] is an error. *)
Variable unmarshalAck : string -> option Ack.

(** The test of [ackHandler.ConsumeClaim]: the ack to cache, if any. *)
Definition accepted (msg : ConsumerMessage) : option Ack :=
  match unmarshalAck (cm_Value msg) with
  | Some a => if decide (a_TraceID a = "") then None else Some a
  | None => None
  end.

(** The body of the loop of [ackHandler.ConsumeClaim] for the record
    [msg], consumed at clock reading [clock]. *)
Definition consume_ack (st : Cache * Session) (cm : Z * ConsumerMessage)
  : Cache * Session :=
  let '(clock, msg) := cm in
  match accepted msg with
  | Some a => (putAck clock a st.1, st.2 ++ [ cm_Offset msg ])
  | None => st
  end.

Definition ConsumeClaim (st : Cache * Session) (input : list (Z * ConsumerMessage))
  : Cache * Session :=
  foldl consume_ack st input.

End WithDecoder.

End Gateway.

(** ** Sample records

    JSON texts of sample envelopes, written by a small printer, and the
    decoders that read exactly these texts back; every other text, such as
    [not_json], is an error for them as it is for encoding/json. *)

Module Samples.

Definition dq : string := String (ascii_of_nat 34) EmptyString.

Definition json_string (s : string) : string := dq +:+ s +:+ dq.

Definition json_any (v : any) : string :=
  match v with
  | AString s => json_string s
  | AInt64 n => strconv.Itoa n
  | AOther raw => raw
  end.

Fixpoint json_join (parts : list string) : string :=
  match parts with
  | [] => ""
  | [p] => p
  | p :: rest => p +:+ "," +:+ json_join rest
  end.

Definition json_object (fields : list (string * string)) : string :=
  "{" +:+ json_join (map (fun kv => json_string kv.1 +:+ ":" +:+ kv.2) fields) +:+ "}".

Definition json_payload (fields : list (string * any)) : string :=
  json_object (map (fun kv => (kv.1, json_any kv.2)) fields).

Definition not_json : string := "not json".

(** *** Commands *)

Definition json_command (trace command : string) (fields : list (string * any)) : string :=
  json_object [ ("trace_id", json_string trace); ("command", json_string command);
                ("resource", json_string "Message"); ("payload", json_payload fields) ].

Definition command_of (trace command : string) (fields : list (string * any)) : Command :=
  mkCommand trace command "Message" (list_to_map fields).

Definition command_samples : list (string * string * list (string * any)) :=
  [ ("t-create", "Create", [ ("message", AString "hello") ]);
    ("t-update", "Update", [ ("id", AString "999"); ("message", AString "x") ]);
    ("t-archive", "Archive", [ ("id", AString "1") ]) ].

Definition unmarshalCommand : string -> option Command :=
  decode_table
    (map (fun s => (json_command s.1.1 s.1.2 s.2, command_of s.1.1 s.1.2 s.2))
         command_samples).

Definition create_raw : string := json_command "t-create" "Create" [ ("message", AString "hello") ].
Definition update_raw : string :=
  json_command "t-update" "Update" [ ("id", AString "999"); ("message", AString "x") ].
Definition archive_raw : string := json_command "t-archive" "Archive" [ ("id", AString "1") ].

Definition empty_db : Worker.DB := Worker.mkDB (Worker.mkTables ∅ [] ∅) 1.

Definition delivery (offset : Z) (key raw : string) (f : Worker.Faults) (send_ok : bool)
  : Worker.Delivery :=
  Worker.mkDelivery (mkConsumerMessage "messages.commands" offset key raw []) f send_ok.

(** *** Acks *)

Definition json_ack (a : Ack) (fields : list (string * any)) : string :=
  json_object [ ("trace_id", json_string (a_TraceID a)); ("status", json_string (a_Status a));
                ("event", json_string (a_Event a)); ("payload", json_payload fields) ].

(** A JSON number read into an [any] is a [float64], kept here as its text. *)
Definition created_fields : list (string * any) :=
  [ ("id", AOther "1"); ("message", AString "hello") ].

Definition created_ack : Ack :=
  mkAck "t-create" "SUCCESS" "MessageCreated" (list_to_map created_fields) None.

(** An ack without a trace id (it decodes, and is then refused). *)
Definition anonymous_ack : Ack := mkAck "" "" "" ∅ None.

Definition unmarshalAck : string -> option Ack :=
  decode_table [ (json_ack created_ack created_fields, created_ack);
                 ("{}", anonymous_ack) ].

Definition ack_record (offset : Z) (raw : string) : ConsumerMessage :=
  mkConsumerMessage "messages.acks" offset "k" raw [].

(** *** Saga events *)

Definition json_event (saga : string) (step : Z) : string :=
  json_object [ ("saga_id", json_string saga); ("step", strconv.Itoa step);
                ("schema_version", "1"); ("ts", json_string "1970-01-01T00:00:00Z");
                ("payload", json_payload [ ("demo", AString "start") ]) ].

Definition event_of (saga : string) (step : Z) : SagaLab.Event :=
  SagaLab.mkEvent saga step 1 0 {[ "demo" := AString "start" ]}.

Definition unmarshalEvent : string -> option SagaLab.Event :=
  decode_table [ (json_event "saga-1" 5, event_of "saga-1" 5);
                 (json_event "saga-2" 5, event_of "saga-2" 5) ].

Definition step5_env : SagaLab.StepEnv :=
  SagaLab.mkStepEnv "kafka:9092" "saga.step4.completed" "saga.step5.completed"
    "saga.dlq" "svc5-group" "5" "fatal".

Definition step5_input : ConsumerMessage :=
  mkConsumerMessage "saga.step4.completed" 3 "saga-1" (json_event "saga-1" 5)
    [ mkHeader "x-saga-id" "saga-1" ].

Definition replay_env : SagaLab.ReplayEnv :=
  SagaLab.mkReplayEnv "kafka:9092" "saga.dlq" "dlq-replayer" "" "saga-1".

Definition dlq_record (offset : Z) (saga : string) : ConsumerMessage :=
  mkConsumerMessage "saga.dlq" offset saga (json_event saga 5)
    [ mkHeader "x-saga-id" saga; mkHeader "x-saga-id" saga;
      mkHeader "x-original-topic" "saga.step4.completed" ].

(** *** The Sarama demo *)

(** A record whose first attempt header already says 3. *)
Definition exhausted : ConsumerMessage :=
  mkConsumerMessage "events.v1" 9 "user-42" "fail: simulate downstream error"
    [ mkHeader "content-type" "text/plain"; mkHeader "x-retry-attempt" "3" ].

End Samples.


(** ** More of the programs: HTTP handlers, topic tables, header carrier *)

(** The functions of Go's [strings] package that the programs use on paths
    and modes. *)
Module GoStrings.

Definition HasPrefix (s prefix : string) : bool := String.prefix prefix s.

(** [strings.TrimPrefix]: [s] without the leading [prefix], or [s] itself. *)
Definition TrimPrefix (s prefix : string) : string :=
  if HasPrefix s prefix
  then substring (String.length prefix) (String.length s - String.length prefix) s
  else s.

End GoStrings.

(** A produced record as the consumer of its topic receives it at
    [offset], its value serialised by [marshal]. *)
Definition on_wire {V : Type} (marshal : V -> string) (offset : Z)
    (out : ProducerMessage V) : ConsumerMessage :=
  mkConsumerMessage (pm_Topic out) offset (pm_Key out) (marshal (pm_Value out))
    (pm_Headers out).

(** ** The HTTP handlers of the API server *)

Module Handlers.

Definition MethodGet : string := "GET".
Definition MethodPost : string := "POST".
Definition MethodPut : string := "PUT".
Definition MethodDelete : string := "DELETE".

Definition StatusBadRequest : Z := 400.
Definition StatusMethodNotAllowed : Z := 405.
Definition StatusServiceUnavailable : Z := 503.

(** What a handler reads of a request. *)
Record Request : Type := mkRequest { Method : string; URLPath : string; Body : string }.

(** What a handler writes. *)
Inductive Reply : Type :=
| Accepted (traceID status : string)     (* the JSON of acceptedResp, status 200 *)
| ErrorReply (text : string) (code : Z)  (* http.Error *)
| StatusOnly (code : Z).                 (* w.WriteHeader *)

Definition reply_code (r : Reply) : Z :=
  match r with
  | Accepted _ _ => Gateway.StatusOK
  | ErrorReply _ c => c
  | StatusOnly c => c
  end.

(** The two results of [uuid.NewString()] in [enqueueCommand]. *)
Record Ids : Type := mkIds { new_trace : string; new_idemp : string }.

(** [enqueueCommand]: the reply and the record handed to [SendMessage];
    [send_ok] is whether the send succeeds.  The value is the map that is
    marshalled, with the fields of a command. *)
Definition enqueueCommand (send_ok : bool) (ids : Ids) (topic cmd : string)
    (payload : gmap string any) : Reply * option (ProducerMessage Command) :=
  let msg :=
    mkProducerMessage topic (new_idemp ids)
      (mkCommand (new_trace ids) cmd "Message" payload)
      [ mkHeader "trace_id" (new_trace ids); mkHeader "command" cmd ] in
  (if send_ok then Accepted (new_trace ids) "PENDING"
   else ErrorReply "enqueue failed" StatusServiceUnavailable,
   Some msg).

Section WithBody.

(** [json.NewDecoder(r.Body).Decode(&b)]: the [Message] of the body, [None]
    on an error; and [strings.TrimSpace]. *)
Variable decodeBody : string -> option string.
Variable TrimSpace : string -> string.

(** The body test shared by POST and PUT: the message when the body decodes
    and is not blank. *)
Definition valid_body (r : Request) : option string :=
  match decodeBody (Body r) with
  | Some m => if decide (TrimSpace m = "") then None else Some m
  | None => None
  end.

Definition createMessageHandler (send_ok : bool) (ids : Ids) (cmdTopic : string)
    (r : Request) : Reply * option (ProducerMessage Command) :=
  if decide (Method r = MethodPost) then
    match valid_body r with
    | Some m => enqueueCommand send_ok ids cmdTopic "Create" {[ "message" := AString m ]}
    | None => (ErrorReply "invalid body" StatusBadRequest, None)
    end
  else (StatusOnly StatusMethodNotAllowed, None).

Definition messageByIDHandler (send_ok : bool) (ids : Ids) (cmdTopic : string)
    (r : Request) : Reply * option (ProducerMessage Command) :=
  let idStr := GoStrings.TrimPrefix (URLPath r) "/v1/messages/" in
  if decide (Method r = MethodGet) then
    enqueueCommand send_ok ids cmdTopic "Read" {[ "id" := AString idStr ]}
  else if decide (Method r = MethodPut) then
    match valid_body r with
    | Some m =>
        enqueueCommand send_ok ids cmdTopic "Update"
          (<[ "message" := AString m ]> {[ "id" := AString idStr ]})
    | None => (ErrorReply "invalid body" StatusBadRequest, None)
    end
  else if decide (Method r = MethodDelete) then
    enqueueCommand send_ok ids cmdTopic "Delete" {[ "id" := AString idStr ]}
  else (StatusOnly StatusMethodNotAllowed, None).

End WithBody.

(** The reply goes with what was done: the answer of [enqueueCommand] when
    a record was handed to the producer, 400 or 405 when none was. *)
Definition reply_matches (send_ok : bool) (ids : Ids)
    (res : Reply * option (ProducerMessage Command)) : Prop :=
  match res.2 with
  | Some _ =>
      res.1 = if send_ok then Accepted (new_trace ids) "PENDING"
              else ErrorReply "enqueue failed" StatusServiceUnavailable
  | None =>
      res.1 = ErrorReply "invalid body" StatusBadRequest
      \/ res.1 = StatusOnly StatusMethodNotAllowed
  end.

End Handlers.

(** ** Topic setup and the loop of the retry worker (cmd/admin, cmd/retryworker) *)

Module Topics.

Record TopicDetail : Type := mkTopicDetail {
  NumPartitions : Z;
  ReplicationFactor : Z;
  ConfigEntries : gmap string string
}.

Definition retained (ms : string) : TopicDetail :=
  mkTopicDetail 3 1 {[ "retention.ms" := ms ]}.

(** The topics that cmd/admin creates. *)
Definition topics : gmap string TopicDetail :=
  <[ "events.v1" := retained "604800000" ]>
  (<[ "events.v1.retry.5s" := retained "3600000" ]>
  (<[ "events.v1.retry.30s" := retained "3600000" ]>
  (<[ "events.v1.retry.2m" := retained "3600000" ]>
  (<[ "events.v1.dlq" := retained "1209600000" ]> ∅)))).

(** [topicDelay] of the retry worker, in nanoseconds. *)
Definition topicDelay : gmap string Z :=
  <[ "events.v1.retry.5s" := 5 * Retry.second ]>
  (<[ "events.v1.retry.30s" := 30 * Retry.second ]>
  (<[ "events.v1.retry.2m" := 2 * Retry.minute ]> ∅)).

(** [topicDelay[c.Topic()]]: a topic that is not in the map reads as 0. *)
Definition delay_of (topic : string) : Z := default 0 (topicDelay !! topic).

(** The topics the retry worker subscribes to, and the one the processor
    subscribes to. *)
Definition retry_subscription : list string :=
  [ "events.v1.retry.5s"; "events.v1.retry.30s"; "events.v1.retry.2m" ].
Definition processor_subscription : list string := [ "events.v1" ].

(** One iteration of the loop of the retry worker on the record [msg] of a
    claim: the time slept, the record handed to [SendMessage], and whether
    the record is marked ("requeued"), which it is when the send succeeds. *)
Definition requeue_one (send_ok : bool) (msg : ConsumerMessage)
  : Z * ProducerMessage string * bool :=
  (delay_of (cm_Topic msg), RetryWorker.requeue msg, send_ok).

End Topics.

(** ** The header carrier of the tracing package (internal/tracing) *)

Module Tracing.

Section WithToLower.

(** [strings.ToLower] of the Go library. *)
Variable ToLower : string -> string.

(** [HeaderCarrier]: [None] is the nil pointer. *)
Definition HeaderCarrier : Type := option (list RecordHeader).

Definition matches (key : string) (h : RecordHeader) : bool :=
  bool_decide (ToLower (hKey h) = ToLower key).

Fixpoint first_match (key : string) (hs : list RecordHeader) : option RecordHeader :=
  match hs with
  | [] => None
  | h :: rest => if matches key h then Some h else first_match key rest
  end.

(** [Get]: the value of the first header whose key is [key] up to case. *)
Definition Get (c : HeaderCarrier) (key : string) : string :=
  match c with
  | None => ""
  | Some hs => from_option hValue "" (first_match key hs)
  end.

(** The loop of [Set]: the headers with the value of the first match
    replaced, [None] when there is no match. *)
Fixpoint replace_first (key val : string) (hs : list RecordHeader)
  : option (list RecordHeader) :=
  match hs with
  | [] => None
  | h :: rest =>
      if matches key h then Some (mkHeader (hKey h) val :: rest)
      else cons h <$> replace_first key val rest
  end.

(** [Set] (a keyword here, hence the name): the carrier afterwards. *)
Definition Set_ (c : HeaderCarrier) (key val : string) : HeaderCarrier :=
  match c with
  | None => None
  | Some hs =>
      match replace_first key val hs with
      | Some hs' => Some hs'
      | None => Some (hs ++ [ mkHeader key val ])
      end
  end.

(** [Keys]: [None] is the nil slice. *)
Definition Keys (c : HeaderCarrier) : option (list string) := map hKey <$> c.

End WithToLower.

End Tracing.

(** ** Readings of a run of the worker and of the state of the gateway *)

(** The offsets marked, and the acks that reached the broker, in a list of
    worker events. *)
Definition marked_offsets (evs : list Worker.Event) : list Z :=
  omap (fun ev => match ev with Worker.Marked o => Some o | _ => None end) evs.

Definition ack_attempts (evs : list Worker.Event) : list (ProducerMessage Ack) :=
  omap (fun ev => match ev with
                  | Worker.Produced m => Some m
                  | Worker.ProduceFailed m => Some m
                  | Worker.Marked _ => None
                  end) evs.

(** Every row of [messages] has an id below the AUTO_INCREMENT counter. *)
Definition ids_below_counter (db : Worker.DB) : Prop :=
  map_Forall (fun id _ => id < Worker.next_id db) (Worker.messages (Worker.tables db)).

(** The two maps of the cache have the same keys, and every ack is stored
    under its own trace id, which is not empty. *)
Definition cache_wf (c : Gateway.Cache) : Prop :=
  dom (Gateway.resultCache c) = dom (Gateway.resultExpires c)
  /\ map_Forall (fun id a => a_TraceID a = id /\ id <> "") (Gateway.resultCache c).

(** What the two goroutines that write the cache do, each step under the
    mutex: the ack consumer takes a record at a clock reading, the sweeper
    makes a pass. *)
Inductive CacheStep : Type :=
| AckRead (clock : Z) (msg : ConsumerMessage)
| SweeperPass (clock : Z).

Definition cache_step (unmarshalAck : string -> option Ack)
    (st : Gateway.Cache * Gateway.Session) (op : CacheStep)
  : Gateway.Cache * Gateway.Session :=
  match op with
  | AckRead t msg => Gateway.consume_ack unmarshalAck st (t, msg)
  | SweeperPass t => (Gateway.sweep t st.1, st.2)
  end.

(** The cache and the session after the steps [ops], from the start of
    the gateway. *)
Definition cache_run (unmarshalAck : string -> option Ack) (ops : list CacheStep)
  : Gateway.Cache * Gateway.Session :=
  foldl (cache_step unmarshalAck) (Gateway.empty_cache, []) ops.

(** The last record of [input] whose ack is accepted under the trace id
    [id], with the clock reading at which it was consumed. *)
Definition latest_ack (unmarshalAck : string -> option Ack) (id : string)
    (input : list (Z * ConsumerMessage)) : option (Z * Ack) :=
  foldl (fun acc cm =>
           match Gateway.accepted unmarshalAck cm.2 with
           | Some a => if decide (a_TraceID a = id) then Some (cm.1, a) else acc
           | None => acc
           end) None input.

(** ** Sample encoders and requests *)

Module MoreSamples.

(** The entries of a payload in the order of their keys, as
    [json.Marshal] writes a map. *)
Fixpoint insert_field (kv : string * any) (l : list (string * any)) : list (string * any) :=
  match l with
  | [] => [ kv ]
  | kv' :: rest =>
      if String.leb kv.1 kv'.1 then kv :: l else kv' :: insert_field kv rest
  end.

Definition sorted_fields (payload : gmap string any) : list (string * any) :=
  foldr insert_field [] (map_to_list payload).

(** The JSON of the maps and structs the programs marshal, for payloads of
    strings and integers. *)
Definition marshalCommand (c : Command) : string :=
  Samples.json_object
    [ ("command", Samples.json_string (c_Command c));
      ("payload", Samples.json_payload (sorted_fields (c_Payload c)));
      ("resource", Samples.json_string (c_Resource c));
      ("trace_id", Samples.json_string (c_TraceID c)) ].

(** The decoder of commands on the texts of two gateway commands. *)
Definition unmarshalCommand : string -> option Command :=
  decode_table
    (map (fun c => (marshalCommand c, c))
       [ mkCommand "t-create" "Create" "Message" {[ "message" := AString "hello" ]};
         mkCommand "t-read" "Read" "Message" {[ "id" := AString "abc" ]};
         mkCommand "t-read-1" "Read" "Message" {[ "id" := AString "1" ]} ]).

Definition marshalAck (a : Ack) : string :=
  Samples.json_ack a (sorted_fields (a_Payload a)).

Definition marshalEvent (evt : SagaLab.Event) : string :=
  Samples.json_event (SagaLab.SagaID evt) (SagaLab.Step evt).

(** Request bodies: the JSON of a message body and its decoder on the
    sample bodies. *)
Definition json_body (m : string) : string :=
  Samples.json_object [ ("message", Samples.json_string m) ].

Definition decodeBody : string -> option string :=
  decode_table [ (json_body "hello", "hello"); (json_body "  ", "  ");
                 (json_body "x", "x") ].

(** [strings.TrimSpace] on texts of letters and blanks. *)
Fixpoint trim_left (s : string) : string :=
  match s with
  | String c rest => if decide (c = " "%char) then trim_left rest else s
  | EmptyString => EmptyString
  end.

Definition TrimSpace (s : string) : string :=
  String.rev (trim_left (String.rev (trim_left s))).

(** [strings.ToLower] on texts of ASCII letters, digits and dashes. *)
Definition lower_char (c : ascii) : ascii :=
  let n := nat_of_ascii c in
  if (65 <=? n)%nat && (n <=? 90)%nat then ascii_of_nat (n + 32) else c.

Fixpoint ToLower (s : string) : string :=
  match s with
  | String c rest => String (lower_char c) (ToLower rest)
  | EmptyString => EmptyString
  end.

Definition ids : Handlers.Ids := Handlers.mkIds "t-create" "k1".

Definition post_hello : Handlers.Request :=
  Handlers.mkRequest "POST" "/v1/messages" (json_body "hello").

Definition read_ids : Handlers.Ids := Handlers.mkIds "t-read" "k9".

Definition get_abc : Handlers.Request :=
  Handlers.mkRequest "GET" "/v1/messages/abc" "".

End MoreSamples.

(** * Properties *)

(** ** Retry stages and the DLQ of the Sarama demo *)

Section RetryProps.

Import Processor.

(** Headers appended after a parseable attempt header are never read. *)
Lemma parseAttempt_headers_app (hs tl : list RecordHeader) :
  has_attempt hs = true ->
  parseAttempt_headers (hs ++ tl) = parseAttempt_headers hs.
Proof.
  induction hs as [|h hs IH]; cbn [app parseAttempt_headers has_attempt existsb]; [done|].
  intros H. apply orb_true_iff in H as [H|H].
  - apply andb_true_iff in H as [Hk Hv].
    apply bool_decide_eq_true_1 in Hk, Hv.
    repeat case_decide; try done. by destruct Hv as [n ->].
  - repeat case_decide; try done; [|by auto].
    destruct (strconv.Atoi (hValue h)); [done|by auto].
Qed.

Lemma has_attempt_app (hs tl : list RecordHeader) :
  has_attempt hs = true -> has_attempt (hs ++ tl) = true.
Proof.
  unfold has_attempt. rewrite existsb_app. intros ->. done.
Qed.

(** A record that carries a parseable attempt header keeps the attempt it
    is read with across a retry hop. *)
Lemma publishNextRetry_keeps_attempt (msg : ConsumerMessage) (err : string)
    (out : ProducerMessage string) :
  has_attempt (cm_Headers msg) = true ->
  publishNextRetry msg err = Ret out ->
  parseAttempt (delivered 0 out) = parseAttempt msg.
Proof.
  intros Hhas. unfold publishNextRetry.
  destruct (Retry.Next (parseAttempt msg)) as [[stage [|]]|r]; intros Hout;
    simplify_eq; unfold parseAttempt; simpl;
    by apply parseAttempt_headers_app.
Qed.

Lemma last_attempt_written (hs : list RecordHeader) (v err : string) :
  last_header Retry.HeaderAttempt
    (hs ++ [ mkHeader Retry.HeaderAttempt v; mkHeader Retry.HeaderError err ]) = Some v.
Proof. unfold last_header. rewrite foldl_app. reflexivity. Qed.

Lemma stuck_step (msg : ConsumerMessage) :
  Pipeline.stuck msg ->
  exists out,
    handle true msg = Forwarded out
    /\ Pipeline.hop out = ("events.v1.retry.30s", 1, Some "2")
    /\ Pipeline.stuck (delivered 0 (RetryWorker.requeue (delivered 0 out))).
Proof.
  intros (Hfail & Hhas & Hatt).
  unfold handle. rewrite Hfail.
  unfold publishNextRetry. rewrite Hatt.
  change (Retry.Next 1)
    with (Ret (Retry.mkStage "events.v1.retry.30s" (30 * Retry.second), true)).
  cbv beta iota.
  eexists. split; [reflexivity|].
  unfold Pipeline.hop, Pipeline.stuck, parseAttempt, delivered, RetryWorker.requeue.
  cbn [pm_Topic pm_Headers pm_Value pm_Key cm_Headers cm_Value Retry.Topic].
  unfold parseAttempt in Hatt.
  rewrite parseAttempt_headers_app by done.
  rewrite last_attempt_written, Hatt.
  split; [reflexivity|].
  split; [exact Hfail|]. split; [|reflexivity].
  by apply has_attempt_app.
Qed.

Lemma stuck_journey (n : nat) (msg : ConsumerMessage) :
  Pipeline.stuck msg ->
  map Pipeline.hop (Pipeline.journey n msg)
  = replicate n ("events.v1.retry.30s", 1, Some "2").
Proof.
  revert msg. induction n as [|n IH]; intros msg Hst; [done|].
  destruct (stuck_step msg Hst) as (out & Hh & Hhop & Hnext).
  simpl. rewrite Hh.
  rewrite decide_False by (injection Hhop as -> _ _; done).
  simpl. rewrite Hhop. f_equal. by apply IH.
Qed.

(** C3 (the code at the failing input): the failing record of the demo
    producer, delivered [n + 1] times, is published to the 5 s topic once
    and then to the 30 s topic every time.  The attempt header written is 1
    and then 2 on every later hop, and the attempt the processor reads from
    the headers stays 1, so the record reaches neither the 2 m topic nor
    the DLQ. *)
Theorem failing_record_never_reaches_dlq (n : nat) :
  map Pipeline.hop (Pipeline.journey (S n) Pipeline.demo_failing)
  = ("events.v1.retry.5s", 1, Some "1")
      :: replicate n ("events.v1.retry.30s", 1, Some "2").
Proof.
  change (Pipeline.journey (S n) Pipeline.demo_failing)
    with (let out := mkProducerMessage "events.v1.retry.5s" "user-42"
                       "fail: simulate downstream error"
                       [ mkHeader "content-type" "text/plain";
                         mkHeader "x-retry-attempt" "1";
                         mkHeader "x-error" "downstream: simulated failure" ] in
          out :: Pipeline.journey n (delivered 0 (RetryWorker.requeue (delivered 0 out)))).
  cbv zeta. rewrite map_cons. f_equal.
  apply stuck_journey. repeat split.
Qed.

(** A retry or DLQ record keeps the key and the value of the record it is
    made from, and its headers start with the headers of that record. *)
Lemma publishNextRetry_keeps_key_and_value (msg : ConsumerMessage) (err : string)
    (out : ProducerMessage string) :
  publishNextRetry msg err = Ret out ->
  pm_Key out = cm_Key msg /\ pm_Value out = cm_Value msg
  /\ exists tl, pm_Headers out = cm_Headers msg ++ tl.
Proof.
  unfold publishNextRetry.
  destruct (Retry.Next (parseAttempt msg)) as [[stage [|]]|r]; intros Hout;
    simplify_eq; simpl; eauto.
Qed.

(** [Next] by cases: a stage for the attempts 0, 1 and 2, none from 3 on,
    and a panic below 0. *)
Lemma Next_by_cases :
  Retry.Next 0 = Ret (Retry.mkStage "events.v1.retry.5s" (5 * Retry.second), true)
  /\ Retry.Next 1 = Ret (Retry.mkStage "events.v1.retry.30s" (30 * Retry.second), true)
  /\ Retry.Next 2 = Ret (Retry.mkStage "events.v1.retry.2m" (2 * Retry.minute), true)
  /\ (forall attempt, 3 <= attempt -> Retry.Next attempt = Ret (Retry.mkStage "" 0, false))
  /\ (forall attempt, attempt < 0 -> Retry.Next attempt = Panic "index out of range").
Proof.
  repeat split; try reflexivity; intros attempt H; unfold Retry.Next;
    change (Z.of_nat (length Retry.Stages)) with 3.
  - by rewrite (proj2 (Z.ltb_ge attempt 3)) by lia.
  - rewrite (proj2 (Z.ltb_lt attempt 3)) by lia.
    by rewrite (proj2 (Z.ltb_lt attempt 0)) by lia.
Qed.

End RetryProps.

(** The first hop of the failing record of the demo producer. *)
Lemma publishNextRetry_keeps_key_and_value_witness :
  pm_Key (mkProducerMessage "events.v1.retry.5s" "user-42" "fail: simulate downstream error"
            [ mkHeader "content-type" "text/plain"; mkHeader "x-retry-attempt" "1";
              mkHeader "x-error" "downstream: simulated failure" ])
  = cm_Key Pipeline.demo_failing.
Proof.
  apply (publishNextRetry_keeps_key_and_value Pipeline.demo_failing
           "downstream: simulated failure").
  reflexivity.
Defined.

(** The DLQ record made from a record whose first attempt header says 3. *)
Lemma publishNextRetry_keeps_attempt_witness :
  Processor.parseAttempt
    (delivered 0
       (mkProducerMessage "events.v1.dlq" "user-42" "fail: simulate downstream error"
          [ mkHeader "content-type" "text/plain"; mkHeader "x-retry-attempt" "3";
            mkHeader "x-retry-attempt" "3";
            mkHeader "x-error" "downstream: simulated failure" ]))
  = Processor.parseAttempt Samples.exhausted.
Proof.
  apply (publishNextRetry_keeps_attempt Samples.exhausted "downstream: simulated failure");
    reflexivity.
Defined.


(** ** The saga lab: step service and DLQ replayer *)

Section SagaLabProps.

Import SagaLab.

Variable unmarshalEvent : string -> option Event.

Lemma last_header_snoc (k v : string) (hs : list RecordHeader) :
  last_header k (hs ++ [ mkHeader k v ]) = Some v.
Proof.
  unfold last_header. rewrite foldl_app. simpl. by rewrite decide_True.
Qed.

Lemma step_env_ok_topic_in (env : StepEnv) :
  step_env_ok env = true -> TOPIC_IN env <> "".
Proof.
  unfold step_env_ok. intros H Hin. rewrite Hin in H.
  rewrite (bool_decide_eq_true_2 ("" = "")) in H by done.
  rewrite orb_true_r in H. done.
Qed.




(** C5 (amended): a DLQ record that decodes, passes the filter and has a
    replay target is handed to the writer for that topic with its key,
    value and headers unchanged, after its offset was committed by the
    read and whatever the write returns; a record the filter rejects is
    consumed without replay; the target is the last [x-original-topic]
    header when there is one. *)
Theorem replayer_republishes_after_commit (env : ReplayEnv) (write_ok : bool)
    (m : ConsumerMessage) (evt : Event) :
  unmarshalEvent (cm_Value m) = Some evt ->
  ((SAGA_ID_FILTER env = "" \/ SagaID evt = SAGA_ID_FILTER env) ->
   replay_target env m <> "" ->
   replay_iter unmarshalEvent env write_ok m
   = [ Committed (cm_Offset m);
       (if write_ok then Replayed else ReplayFailed)
         (mkProducerMessage (replay_target env m) (cm_Key m) (cm_Value m) (cm_Headers m)) ])
  /\ (SAGA_ID_FILTER env <> "" -> SagaID evt <> SAGA_ID_FILTER env ->
      replay_iter unmarshalEvent env write_ok m = [ Committed (cm_Offset m) ])
  /\ (forall t, last_header HeaderOriginalTopic (cm_Headers m) = Some t ->
      replay_target env m = t).
Proof.
  intros Hdec. unfold replay_iter. rewrite Hdec. repeat split.
  - intros Hmatch Htarget.
    rewrite (bool_decide_eq_false_2 (replay_target env m = "")) by done.
    destruct Hmatch as [Hnone|Hsame].
    + rewrite (bool_decide_eq_true_2 (SAGA_ID_FILTER env = "")) by done.
      simpl. by destruct write_ok.
    + rewrite (bool_decide_eq_true_2 (SagaID evt = SAGA_ID_FILTER env)) by done.
      rewrite andb_false_r. by destruct write_ok.
  - intros Hfilter Hother.
    rewrite (bool_decide_eq_false_2 (SAGA_ID_FILTER env = "")) by done.
    by rewrite (bool_decide_eq_false_2 (SagaID evt = SAGA_ID_FILTER env)) by done.
  - intros t Ht. unfold replay_target. by rewrite Ht.
Qed.

End SagaLabProps.


(** C5 (counterexample): the replay write of a matching record fails, and
    its offset is committed all the same. *)
Lemma replayer_commits_before_replay :
  SagaLab.replay_iter Samples.unmarshalEvent Samples.replay_env false
    (Samples.dlq_record 7 "saga-1")
  = [ SagaLab.Committed 7;
      SagaLab.ReplayFailed
        (mkProducerMessage "saga.step4.completed" "saga-1" (Samples.json_event "saga-1" 5)
           [ mkHeader "x-saga-id" "saga-1"; mkHeader "x-saga-id" "saga-1";
             mkHeader "x-original-topic" "saga.step4.completed" ]) ].
Proof. reflexivity. Qed.

(** The replayer with a filter for saga-1, on a record of saga-1 and on a
    record of saga-2. *)
Lemma replayer_republishes_after_commit_witness :
  SagaLab.replay_iter Samples.unmarshalEvent Samples.replay_env true
    (Samples.dlq_record 7 "saga-1")
  = [ SagaLab.Committed 7;
      SagaLab.Replayed
        (mkProducerMessage "saga.step4.completed" "saga-1" (Samples.json_event "saga-1" 5)
           [ mkHeader "x-saga-id" "saga-1"; mkHeader "x-saga-id" "saga-1";
             mkHeader "x-original-topic" "saga.step4.completed" ]) ]
  /\ SagaLab.replay_iter Samples.unmarshalEvent Samples.replay_env true
       (Samples.dlq_record 8 "saga-2")
     = [ SagaLab.Committed 8 ].
Proof.
  pose proof (replayer_republishes_after_commit Samples.unmarshalEvent Samples.replay_env
                true (Samples.dlq_record 7 "saga-1") (Samples.event_of "saga-1" 5) eq_refl)
    as (H1 & _ & _).
  pose proof (replayer_republishes_after_commit Samples.unmarshalEvent Samples.replay_env
                true (Samples.dlq_record 8 "saga-2") (Samples.event_of "saga-2" 5) eq_refl)
    as (_ & H2 & _).
  split.
  - apply H1; [right; reflexivity | vm_compute; discriminate].
  - apply H2; vm_compute; discriminate.
Defined.

Section WorkerProps.

Import Worker.

Variable unmarshalCommand : string -> option Command.
Variable ackTopic : string.

Lemma logSaga_messages f tx t s st c d :
  messages (view (logSaga f tx t s st c d)) = messages (view tx).
Proof. unfold logSaga. by destruct (f_saga f). Qed.

Lemma logSaga_keys f tx t s st c d :
  idempotency_keys (view (logSaga f tx t s st c d)) = idempotency_keys (view tx).
Proof. unfold logSaga. by destruct (f_saga f). Qed.

Lemma exec_insert_spec f tx m tx1 r :
  exec_insert f tx m = (tx1, r) ->
  idempotency_keys (view tx1) = idempotency_keys (view tx)
  /\ (forall err, r = inl err -> tx1 = tx).
Proof.
  unfold exec_insert. destruct (f_stmt f); intros [= <- <-]; split; done.
Qed.

Lemma exec_update_spec f tx m id tx1 r :
  exec_update f tx m id = (tx1, r) ->
  idempotency_keys (view tx1) = idempotency_keys (view tx)
  /\ (forall err, r = inl err -> tx1 = tx)
  /\ (r = inr 0 -> tx1 = tx).
Proof.
  unfold exec_update. destruct (f_stmt f); [by intros [= <- <-]|].
  destruct (messages (view tx) !! id); [|by intros [= <- <-]].
  case_decide; intros [= <- <-]; repeat split; done.
Qed.

Lemma exec_delete_spec f tx id tx1 r :
  exec_delete f tx id = (tx1, r) ->
  idempotency_keys (view tx1) = idempotency_keys (view tx)
  /\ (forall err, r = inl err -> tx1 = tx)
  /\ (r = inr 0 -> tx1 = tx).
Proof.
  unfold exec_delete. destruct (f_stmt f); [by intros [= <- <-]|].
  destruct (messages (view tx) !! id); intros [= <- <-]; repeat split; done.
Qed.

(** The switch never touches the idempotency table, and a case that
    changes [messages] falls out of the switch with the status it had. *)
Lemma dispatch_spec f cmd tx l tx1 l1 ret :
  dispatch f cmd tx l = (tx1, l1, ret) ->
  idempotency_keys (view tx1) = idempotency_keys (view tx)
  /\ (messages (view tx1) <> messages (view tx) -> ret = false /\ status l1 = status l).
Proof.
  unfold dispatch. repeat case_decide.
  - destruct (exec_insert _ _ _) as [tx2 [err|id]] eqn:Hx;
      apply exec_insert_spec in Hx as [Hk He]; intros [= <- <- <-];
      rewrite logSaga_keys, logSaga_messages; split; try done.
    rewrite (He err eq_refl). done.
  - destruct (query_message _ _ _) as [[mid text]|]; intros [= <- <- <-];
      rewrite logSaga_keys, logSaga_messages; done.
  - destruct (exec_update _ _ _ _) as [tx2 [err|n]] eqn:Hx;
      apply exec_update_spec in Hx as (Hk & He & Hz).
    + intros [= <- <- <-]. rewrite logSaga_keys, logSaga_messages.
      rewrite (He err eq_refl). done.
    + case_decide as Hn; intros [= <- <- <-];
        rewrite logSaga_keys, logSaga_messages; split; try done.
      subst n. rewrite (Hz eq_refl). done.
  - destruct (exec_delete _ _ _) as [tx2 [err|n]] eqn:Hx;
      apply exec_delete_spec in Hx as (Hk & He & Hz).
    + intros [= <- <- <-]. rewrite logSaga_keys, logSaga_messages.
      rewrite (He err eq_refl). done.
    + case_decide as Hn; intros [= <- <- <-];
        rewrite logSaga_keys, logSaga_messages; split; try done.
      subst n. rewrite (Hz eq_refl). done.
  - intros [= <- <- <-]. done.
Qed.

Lemma markIdempotent_spec f tx key trace st tx1 err :
  markIdempotent f tx key trace st = (tx1, err) ->
  messages (view tx1) = messages (view tx)
  /\ (forall k, is_Some (idempotency_keys (view tx) !! k) ->
                is_Some (idempotency_keys (view tx1) !! k))
  /\ (err = None -> idempotency_keys (view tx) !! key = None ->
      idempotency_keys (view tx1) !! key = Some (mkIdemRow st trace)).
Proof.
  unfold markIdempotent. destruct (f_mark f); [by intros [= <- <-]|].
  intros [= <- <-]. simpl. repeat split.
  - intros k Hk. destruct (idempotency_keys (view tx) !! key); [done|].
    destruct (decide (key = k)) as [->|Hne].
    + rewrite lookup_insert_eq. by eexists.
    + by rewrite lookup_insert_ne.
  - intros _ ->. by rewrite lookup_insert_eq.
Qed.

(** The transaction body: a recorded key leaves the view alone; a change
    of [messages] comes with the key's row, inserted with SUCCESS; rows of
    the idempotency table are never removed. *)
Lemma tx_body_spec f msg cmd tx tx' l err :
  tx_body f msg cmd tx = (tx', l, err) ->
  (is_Some (idempotency_keys (view tx) !! idem_key msg cmd) -> view tx' = view tx)
  /\ (messages (view tx') <> messages (view tx) ->
      err = None ->
      idempotency_keys (view tx) !! idem_key msg cmd = None
      /\ idempotency_keys (view tx') !! idem_key msg cmd
         = Some (mkIdemRow "SUCCESS" (c_TraceID cmd)))
  /\ (forall k, is_Some (idempotency_keys (view tx) !! k) ->
                is_Some (idempotency_keys (view tx') !! k)).
Proof.
  unfold tx_body, checkIdempotent.
  destruct (f_check f); [by intros [= <- <- <-]|].
  case_bool_decide as Hrec; [by intros [= <- <- <-]|].
  destruct (dispatch _ _ _ _) as [[tx1 l1] ret] eqn:Hd.
  apply dispatch_spec in Hd as [Hk Hm].
  assert (Hfresh : idempotency_keys (view tx) !! idem_key msg cmd = None).
  { destruct (idempotency_keys (view tx) !! idem_key msg cmd) eqn:E; [|done].
    destruct Hrec. by eexists. }
  destruct ret.
  - intros [= <- <- <-]. split; [by intros ?|]. split.
    + intros Hch. by destruct (Hm Hch).
    + intros k. by rewrite Hk.
  - destruct (markIdempotent _ _ _ _ _) as [tx2 err2] eqn:Hmk.
    apply markIdempotent_spec in Hmk as (Hmm & Hmono & Hins).
    intros [= <- <- <-]. split; [by intros ?|]. split.
    + intros Hch ->. split; [done|].
      rewrite Hmm in Hch. destruct (Hm Hch) as [_ Hst].
      rewrite Hst in Hins. apply Hins; [done|]. by rewrite Hk.
    + intros k Hsome. apply Hmono. by rewrite Hk.
Qed.

(** The transaction of one delivery as a whole. *)
Lemma transaction_spec db f msg cmd db' l err :
  withTx db f init_locals (tx_body f msg cmd) = (db', l, err) ->
  (err <> None -> tables db' = tables db)
  /\ (is_Some (idempotency_keys (tables db) !! idem_key msg cmd) ->
      tables db' = tables db)
  /\ (messages (tables db') <> messages (tables db) ->
      err = None
      /\ idempotency_keys (tables db) !! idem_key msg cmd = None
      /\ idempotency_keys (tables db') !! idem_key msg cmd
         = Some (mkIdemRow "SUCCESS" (c_TraceID cmd)))
  /\ (forall k, is_Some (idempotency_keys (tables db) !! k) ->
                is_Some (idempotency_keys (tables db') !! k)).
Proof.
  unfold withTx. destruct (f_begin f); [by intros [= <- <- <-]|].
  destruct (tx_body _ _ _ _) as [[tx' l'] err'] eqn:Hb.
  apply tx_body_spec in Hb as (Hrec & Heff & Hmono). simpl in *.
  destruct err' as [e'|]; [by intros [= <- <- <-]|].
  destruct (f_commit f); intros [= <- <- <-]; simpl; [done|].
  repeat split; try done; by apply Heff.
Qed.





(** C6 (amended): a record whose value does not decode is skipped: the
    database is left as it is, nothing is produced (no DLQ record, no
    ack) and the offset is not marked. *)
Theorem undecodable_command_is_skipped (db : DB) (d : Delivery) :
  unmarshalCommand (cm_Value (d_msg d)) = None ->
  consume_one unmarshalCommand ackTopic db d = (db, []).
Proof. unfold consume_one. by intros ->. Qed.

(** A delivery whose key is already recorded is answered with a bare
    SUCCESS ack, whatever status the row holds. *)
Lemma redelivery_acks_success (db : DB) (d : Delivery) (cmd : Command) :
  unmarshalCommand (cm_Value (d_msg d)) = Some cmd ->
  is_Some (idempotency_keys (tables db) !! idem_key (d_msg d) cmd) ->
  first_error [ f_begin (d_faults d); f_check (d_faults d); f_commit (d_faults d) ] = None ->
  consume_one unmarshalCommand ackTopic db d
  = (db, [ (if d_send_ok d then Produced else ProduceFailed)
             (mkProducerMessage ackTopic (cm_Key (d_msg d))
                (mkAck (c_TraceID cmd) "SUCCESS" "" ∅ None) []);
           Marked (cm_Offset (d_msg d)) ]).
Proof.
  intros Hdec Hrec Hok. unfold consume_one. rewrite Hdec.
  unfold withTx, tx_body, checkIdempotent. simpl in Hok.
  destruct (f_begin (d_faults d)); [done|].
  destruct (f_check (d_faults d)); [done|].
  destruct (f_commit (d_faults d)); [done|]. simpl.
  rewrite bool_decide_eq_true_2 by done. simpl.
  destruct db as [t n]. by destruct (d_send_ok d).
Qed.

(** C10 (amended): a command that is none of the four operations, on the
    first processing of its key: when the transaction goes through, the
    ack is FAILURE / UNSUPPORTED, the row of the key is inserted with
    FAILURE, and neither [messages] nor [saga_log] changes; when a call
    of the transaction fails, the ack is FAILURE / INTERNAL with that
    error and the database is left as it was. *)
Theorem unsupported_command_outcome (db : DB) (d : Delivery) (cmd : Command) :
  unmarshalCommand (cm_Value (d_msg d)) = Some cmd ->
  c_Command cmd <> "Create" -> c_Command cmd <> "Read" ->
  c_Command cmd <> "Update" -> c_Command cmd <> "Delete" ->
  idempotency_keys (tables db) !! idem_key (d_msg d) cmd = None ->
  consume_one unmarshalCommand ackTopic db d
  = match first_error [ f_begin (d_faults d); f_check (d_faults d);
                        f_mark (d_faults d); f_commit (d_faults d) ] with
    | None =>
        (mkDB (mkTables (messages (tables db)) (saga_log (tables db))
                 (<[ idem_key (d_msg d) cmd := mkIdemRow "FAILURE" (c_TraceID cmd) ]>
                    (idempotency_keys (tables db))))
              (next_id db),
         [ (if d_send_ok d then Produced else ProduceFailed)
             (mkProducerMessage ackTopic (cm_Key (d_msg d))
                (mkAck (c_TraceID cmd) "FAILURE" "" ∅
                   (Some (mkError "UNSUPPORTED" "unknown command"))) []);
           Marked (cm_Offset (d_msg d)) ])
    | Some err =>
        (db,
         [ (if d_send_ok d then Produced else ProduceFailed)
             (mkProducerMessage ackTopic (cm_Key (d_msg d))
                (mkAck (c_TraceID cmd) "FAILURE" "Error" ∅
                   (Some (mkError "INTERNAL" err))) []);
           Marked (cm_Offset (d_msg d)) ])
    end.
Proof.
  intros Hdec Hc Hr Hu Hd Hfresh. unfold consume_one. rewrite Hdec.
  unfold withTx, tx_body, checkIdempotent, dispatch, markIdempotent.
  destruct db as [t n]. simpl in *.
  destruct (f_begin (d_faults d)); [by destruct (d_send_ok d)|].
  destruct (f_check (d_faults d)); [by destruct (d_send_ok d)|].
  rewrite bool_decide_eq_false_2 by (rewrite Hfresh; by intros [? ?]).
  repeat (rewrite decide_False by done). simpl.
  destruct (f_mark (d_faults d)); [by destruct (d_send_ok d)|].
  rewrite Hfresh.
  destruct (f_commit (d_faults d)); by destruct (d_send_ok d).
Qed.

(** The offset is marked after the ack send whatever the send returns: the
    database and the ack are the same in both cases. *)
Lemma offset_marked_whatever_the_send_returns (db : DB) (msg : ConsumerMessage)
    (f : Faults) (cmd : Command) :
  unmarshalCommand (cm_Value msg) = Some cmd ->
  exists db' ack, forall send_ok,
    consume_one unmarshalCommand ackTopic db (mkDelivery msg f send_ok)
    = (db', [ (if send_ok then Produced else ProduceFailed)
                (mkProducerMessage ackTopic (cm_Key msg) ack []);
              Marked (cm_Offset msg) ]).
Proof.
  intros Hdec. unfold consume_one. simpl. rewrite Hdec.
  destruct (withTx _ _ _ _) as [[db' l] err].
  exists db', (build_ack cmd l err). by intros [].
Qed.

(** A Create on the first processing of its key, on a healthy database: the
    row is inserted under the next id, one SUCCESS row goes to [saga_log],
    the key is recorded with SUCCESS, and the ack is SUCCESS /
    MessageCreated with the id and the message. *)
Lemma create_applies_and_records (db : DB) (d : Delivery) (cmd : Command) :
  unmarshalCommand (cm_Value (d_msg d)) = Some cmd ->
  c_Command cmd = "Create" ->
  d_faults d = no_faults ->
  idempotency_keys (tables db) !! idem_key (d_msg d) cmd = None ->
  consume_one unmarshalCommand ackTopic db d
  = (mkDB (mkTables
             (<[ next_id db := payload_string (c_Payload cmd) "message" ]>
                (messages (tables db)))
             (saga_log (tables db) ++
                [ mkSagaRow (c_TraceID cmd) "CreateMessage" "SUCCESS" "" "" ])
             (<[ idem_key (d_msg d) cmd := mkIdemRow "SUCCESS" (c_TraceID cmd) ]>
                (idempotency_keys (tables db))))
          (next_id db + 1),
     [ (if d_send_ok d then Produced else ProduceFailed)
         (mkProducerMessage ackTopic (cm_Key (d_msg d))
            (mkAck (c_TraceID cmd) "SUCCESS" "MessageCreated"
               (<[ "message" := AString (payload_string (c_Payload cmd) "message") ]>
                  {[ "id" := AInt64 (next_id db) ]}) None) []);
       Marked (cm_Offset (d_msg d)) ]).
Proof.
  intros Hdec Hcmd Hf Hfresh. unfold consume_one. rewrite Hdec, Hf.
  unfold withTx, tx_body, checkIdempotent, dispatch, exec_insert, logSaga, markIdempotent.
  destruct db as [t n]. simpl in *.
  rewrite bool_decide_eq_false_2 by (rewrite Hfresh; by intros [? ?]).
  rewrite Hcmd. simpl. rewrite Hfresh. by destruct (d_send_ok d).
Qed.

(** Every ack goes to the ack topic under the key of the command record. *)
Lemma ack_keyed_as_command (db : DB) (d : Delivery) (m : ProducerMessage Ack) :
  Produced m ∈ (consume_one unmarshalCommand ackTopic db d).2
  \/ ProduceFailed m ∈ (consume_one unmarshalCommand ackTopic db d).2 ->
  pm_Topic m = ackTopic /\ pm_Key m = cm_Key (d_msg d).
Proof.
  unfold consume_one.
  destruct (unmarshalCommand (cm_Value (d_msg d))) as [cmd|]; simpl.
  - destruct (withTx _ _ _ _) as [[db' l] err]. simpl.
    destruct (d_send_ok d); intros [Hin|Hin];
      apply elem_of_cons in Hin as [Heq|Hin];
      try apply list_elem_of_singleton in Hin; simplify_eq; done.
  - intros [Hin|Hin]; by apply elem_of_nil in Hin.
Qed.


End WorkerProps.

(** A Create delivered twice under one key is applied once. *)
Example create_twice_applies_once :
  Worker.effects_on_messages Samples.unmarshalCommand "messages.acks" "k1" Samples.empty_db
    [ Samples.delivery 0 "k1" Samples.create_raw Worker.no_faults false;
      Samples.delivery 0 "k1" Samples.create_raw Worker.no_faults true ] = 1%nat.
Proof. vm_compute. reflexivity. Qed.


(** A Create whose ack send may fail. *)
Lemma offset_marked_whatever_the_send_returns_witness :
  exists db' ack, forall send_ok,
    Worker.consume_one Samples.unmarshalCommand "messages.acks" Samples.empty_db
      (Samples.delivery 0 "k1" Samples.create_raw Worker.no_faults send_ok)
    = (db', [ (if send_ok then Worker.Produced else Worker.ProduceFailed)
                (mkProducerMessage "messages.acks" "k1" ack []);
              Worker.Marked 0 ]).
Proof.
  apply (offset_marked_whatever_the_send_returns Samples.unmarshalCommand "messages.acks"
           Samples.empty_db
           (mkConsumerMessage "messages.commands" 0 "k1" Samples.create_raw [])
           Worker.no_faults
           (Samples.command_of "t-create" "Create" [ ("message", AString "hello") ])).
  reflexivity.
Defined.

(** The first Create on an empty database. *)
Lemma create_applies_and_records_witness :
  Worker.consume_one Samples.unmarshalCommand "messages.acks" Samples.empty_db
    (Samples.delivery 0 "k1" Samples.create_raw Worker.no_faults true)
  = (Worker.mkDB
       (Worker.mkTables (<[ 1 := "hello" ]> ∅)
          [ Worker.mkSagaRow "t-create" "CreateMessage" "SUCCESS" "" "" ]
          (<[ "k1" := Worker.mkIdemRow "SUCCESS" "t-create" ]> ∅))
       2,
     [ Worker.Produced
         (mkProducerMessage "messages.acks" "k1"
            (mkAck "t-create" "SUCCESS" "MessageCreated"
               (<[ "message" := AString "hello" ]> {[ "id" := AInt64 1 ]}) None) []);
       Worker.Marked 0 ]).
Proof.
  apply (create_applies_and_records Samples.unmarshalCommand "messages.acks" Samples.empty_db
           (Samples.delivery 0 "k1" Samples.create_raw Worker.no_faults true)
           (Samples.command_of "t-create" "Create" [ ("message", AString "hello") ]));
    reflexivity.
Defined.

(** The ack of an Archive command sent under the key k1. *)
Lemma ack_keyed_as_command_witness :
  pm_Topic (mkProducerMessage "messages.acks" "k1"
              (mkAck "t-archive" "FAILURE" "" ∅
                 (Some (mkError "UNSUPPORTED" "unknown command"))) [])
  = "messages.acks"
  /\ pm_Key (mkProducerMessage "messages.acks" "k1"
               (mkAck "t-archive" "FAILURE" "" ∅
                  (Some (mkError "UNSUPPORTED" "unknown command"))) [])
     = "k1".
Proof.
  apply (ack_keyed_as_command Samples.unmarshalCommand "messages.acks" Samples.empty_db
           (Samples.delivery 0 "k1" Samples.archive_raw Worker.no_faults true)).
  left. vm_compute. constructor.
Defined.


(** The second delivery of an Archive command recorded with FAILURE. *)
Lemma redelivery_acks_success_witness :
  Worker.consume_one Samples.unmarshalCommand "messages.acks"
    (Worker.mkDB
       (Worker.mkTables ∅ [] {[ "k1" := Worker.mkIdemRow "FAILURE" "t-archive" ]}) 1)
    (Samples.delivery 1 "k1" Samples.archive_raw Worker.no_faults true)
  = (Worker.mkDB
       (Worker.mkTables ∅ [] {[ "k1" := Worker.mkIdemRow "FAILURE" "t-archive" ]}) 1,
     [ Worker.Produced
         (mkProducerMessage "messages.acks" "k1" (mkAck "t-archive" "SUCCESS" "" ∅ None) []);
       Worker.Marked 1 ]).
Proof.
  apply (redelivery_acks_success Samples.unmarshalCommand "messages.acks"
           (Worker.mkDB
              (Worker.mkTables ∅ [] {[ "k1" := Worker.mkIdemRow "FAILURE" "t-archive" ]}) 1)
           (Samples.delivery 1 "k1" Samples.archive_raw Worker.no_faults true)
           (Samples.command_of "t-archive" "Archive" [ ("id", AString "1") ]));
    [ reflexivity | by eexists | reflexivity ].
Defined.

(** C2 (the code at the failing input): the ack send of a Create fails, and
    the offset of the record is marked all the same, after the row and the
    idempotency key were committed. *)
Theorem offset_marked_when_ack_send_fails :
  Worker.consume_one Samples.unmarshalCommand "messages.acks" Samples.empty_db
    (Samples.delivery 0 "k1" Samples.create_raw Worker.no_faults false)
  = (Worker.mkDB
       (Worker.mkTables {[ 1 := "hello" ]}
          [ Worker.mkSagaRow "t-create" "CreateMessage" "SUCCESS" "" "" ]
          {[ "k1" := Worker.mkIdemRow "SUCCESS" "t-create" ]})
       2,
     [ Worker.ProduceFailed
         (mkProducerMessage "messages.acks" "k1"
            (mkAck "t-create" "SUCCESS" "MessageCreated"
               (<[ "message" := AString "hello" ]> {[ "id" := AInt64 1 ]}) None) []);
       Worker.Marked 0 ]).
Proof. vm_compute. reflexivity. Qed.

(** C6 (counterexample): a record that is not JSON, followed by a Create:
    nothing is produced for the first record, to a DLQ or elsewhere, and
    its offset is not marked; the only records produced are acks. *)
Lemma undecodable_command_reaches_no_dlq :
  Worker.ConsumeClaim Samples.unmarshalCommand "messages.acks" Samples.empty_db
    [ Samples.delivery 0 "k0" Samples.not_json Worker.no_faults true;
      Samples.delivery 1 "k1" Samples.create_raw Worker.no_faults true ]
  = (Worker.mkDB
       (Worker.mkTables {[ 1 := "hello" ]}
          [ Worker.mkSagaRow "t-create" "CreateMessage" "SUCCESS" "" "" ]
          {[ "k1" := Worker.mkIdemRow "SUCCESS" "t-create" ]})
       2,
     [ Worker.Produced
         (mkProducerMessage "messages.acks" "k1"
            (mkAck "t-create" "SUCCESS" "MessageCreated"
               (<[ "message" := AString "hello" ]> {[ "id" := AInt64 1 ]}) None) []);
       Worker.Marked 1 ]).
Proof. vm_compute. reflexivity. Qed.

(** The worker on a record that is not JSON. *)
Lemma undecodable_command_is_skipped_witness :
  Worker.consume_one Samples.unmarshalCommand "messages.acks" Samples.empty_db
    (Samples.delivery 0 "k0" Samples.not_json Worker.no_faults true)
  = (Samples.empty_db, []).
Proof.
  apply (undecodable_command_is_skipped Samples.unmarshalCommand "messages.acks").
  reflexivity.
Defined.

(** C7 (the code at the failing input): an unsupported command is recorded
    with FAILURE and acked with FAILURE; delivered again, it is acked with
    SUCCESS. *)
Theorem recorded_failure_is_reacked_as_success :
  Worker.ConsumeClaim Samples.unmarshalCommand "messages.acks" Samples.empty_db
    [ Samples.delivery 0 "k1" Samples.archive_raw Worker.no_faults true;
      Samples.delivery 1 "k1" Samples.archive_raw Worker.no_faults true ]
  = (Worker.mkDB
       (Worker.mkTables ∅ [] {[ "k1" := Worker.mkIdemRow "FAILURE" "t-archive" ]}) 1,
     [ Worker.Produced
         (mkProducerMessage "messages.acks" "k1"
            (mkAck "t-archive" "FAILURE" "" ∅
               (Some (mkError "UNSUPPORTED" "unknown command"))) []);
       Worker.Marked 0;
       Worker.Produced
         (mkProducerMessage "messages.acks" "k1" (mkAck "t-archive" "SUCCESS" "" ∅ None) []);
       Worker.Marked 1 ]).
Proof. vm_compute. reflexivity. Qed.

(** C10 (counterexample): the insert of the idempotency row fails; the ack
    is FAILURE / INTERNAL and no row is recorded. *)
Lemma unsupported_command_with_failed_insert :
  Worker.consume_one Samples.unmarshalCommand "messages.acks" Samples.empty_db
    (Samples.delivery 0 "k1" Samples.archive_raw
       (Worker.mkFaults None None None false (Some "invalid connection") None) true)
  = (Samples.empty_db,
     [ Worker.Produced
         (mkProducerMessage "messages.acks" "k1"
            (mkAck "t-archive" "FAILURE" "Error" ∅
               (Some (mkError "INTERNAL" "invalid connection"))) []);
       Worker.Marked 0 ]).
Proof. vm_compute. reflexivity. Qed.

(** The worker on the first delivery of an Archive command. *)
Lemma unsupported_command_outcome_witness :
  Worker.consume_one Samples.unmarshalCommand "messages.acks" Samples.empty_db
    (Samples.delivery 0 "k1" Samples.archive_raw Worker.no_faults true)
  = (Worker.mkDB
       (Worker.mkTables ∅ [] (<[ "k1" := Worker.mkIdemRow "FAILURE" "t-archive" ]> ∅)) 1,
     [ Worker.Produced
         (mkProducerMessage "messages.acks" "k1"
            (mkAck "t-archive" "FAILURE" "" ∅
               (Some (mkError "UNSUPPORTED" "unknown command"))) []);
       Worker.Marked 0 ]).
Proof.
  apply (unsupported_command_outcome Samples.unmarshalCommand "messages.acks"
           Samples.empty_db
           (Samples.delivery 0 "k1" Samples.archive_raw Worker.no_faults true)
           (Samples.command_of "t-archive" "Archive" [ ("id", AString "1") ]));
    [ reflexivity | discriminate.. | reflexivity ].
Defined.

(** ** The gateway: result cache, long poll, ack consumer *)

Section GatewayProps.

Import Gateway.

Variable unmarshalAck : string -> option Ack.

(** An entry past its expiry reads as absent. *)
Lemma getAck_expired (clock : Z) (id : string) (c : Cache) (exp : Z) :
  resultExpires c !! id = Some exp -> exp < clock -> getAck clock id c = None.
Proof.
  intros Hexp Hlt. unfold getAck, expired. rewrite Hexp.
  destruct (resultCache c !! id); [|done].
  by rewrite (proj2 (Z.ltb_lt exp clock) Hlt).
Qed.

(** An ack just cached can be read back until its expiry. *)
Lemma getAck_putAck (t clock : Z) (a : Ack) (c : Cache) :
  clock <= t + cacheTTL -> getAck clock (a_TraceID a) (putAck t a c) = Some a.
Proof.
  intros Hle. unfold getAck, expired, putAck. simpl.
  rewrite !lookup_insert_eq.
  by rewrite (proj2 (Z.ltb_ge (t + cacheTTL) clock) Hle).
Qed.

Lemma handler_no_ack (traceID : string) (rest : list Snapshot) (first : Snapshot) :
  (forall s, s ∈ first :: rest -> getAck (now s) traceID (cache s) = None) ->
  operationResultHandler traceID first rest = mkResponse StatusNoContent None.
Proof.
  revert first. induction rest as [|s rest IH]; intros first Hall; simpl.
  - by rewrite (Hall first) by left.
  - rewrite (Hall first) by left. apply IH. intros s' Hin. apply Hall. by right.
Qed.

Lemma handler_first_ack (traceID : string) (pre : list Snapshot) (first s : Snapshot)
    (rest post : list Snapshot) (a : Ack) :
  first :: rest = pre ++ s :: post ->
  (forall s', s' ∈ pre -> getAck (now s') traceID (cache s') = None) ->
  getAck (now s) traceID (cache s) = Some a ->
  operationResultHandler traceID first rest = mkResponse StatusOK (Some a).
Proof.
  revert first rest. induction pre as [|p pre IH]; intros first rest Heq Hpre Hs;
    simpl in Heq; simplify_eq.
  - destruct post; simpl; by rewrite Hs.
  - assert (Hp : getAck (now p) traceID (cache p) = None) by (apply Hpre; left).
    assert (Htl : forall s', s' ∈ pre -> getAck (now s') traceID (cache s') = None)
      by (intros s' Hin; apply Hpre; by right).
    destruct pre as [|p' pre']; simpl; rewrite Hp.
    + by apply (IH s post).
    + by apply (IH p' (pre' ++ s :: post)).
Qed.

Lemma handler_code (traceID : string) (rest : list Snapshot) (first : Snapshot) :
  code (operationResultHandler traceID first rest) = StatusOK
  \/ code (operationResultHandler traceID first rest) = StatusNoContent.
Proof.
  revert first. induction rest as [|s rest IH]; intros first; simpl;
    destruct (getAck (now first) traceID (cache first)); simpl; auto.
Qed.

(** C8 (amended): GET /operations/{trace_id} answers 200 with the ack
    that the first successful lookup finds, and 204 when no lookup within
    the long-poll budget finds one; an entry past its expiry is not found,
    so the answer is then 204 as well, and no answer is 410. *)
Theorem operation_result_is_200_or_204 :
  (forall traceID first rest pre s post a,
      first :: rest = pre ++ s :: post ->
      (forall s', s' ∈ pre -> getAck (now s') traceID (cache s') = None) ->
      getAck (now s) traceID (cache s) = Some a ->
      operationResultHandler traceID first rest = mkResponse StatusOK (Some a))
  /\ (forall traceID first rest,
        (forall s, s ∈ first :: rest -> getAck (now s) traceID (cache s) = None) ->
        operationResultHandler traceID first rest = mkResponse StatusNoContent None)
  /\ (forall clock id c exp,
        resultExpires c !! id = Some exp -> exp < clock -> getAck clock id c = None)
  /\ (forall traceID first rest,
        code (operationResultHandler traceID first rest) <> StatusGone).
Proof.
  split; [|split; [|split]].
  - intros. by eapply handler_first_ack.
  - intros. by apply handler_no_ack.
  - intros. by eapply getAck_expired.
  - intros traceID first rest.
    destruct (handler_code traceID rest first) as [-> | ->]; done.
Qed.

(** The record at [offset] comes again after a restart exactly when the
    group resumed at or before it and no offset from it on was marked. *)
Lemma redelivered_iff (marks : Session) (initial offset : Z) :
  redelivered initial marks offset = true
  <-> initial <= offset /\ Forall (fun m => m < offset) marks.
Proof.
  unfold redelivered, committed_offset. rewrite Z.leb_le.
  revert initial. induction marks as [|m marks IH]; intros initial; simpl.
  - split; [by intros ?; split|by intros [? _]].
  - rewrite IH. rewrite Forall_cons.
    intuition lia.
Qed.

Lemma consume_ack_marks (st : Cache * Session) (cm : Z * ConsumerMessage) :
  (consume_ack unmarshalAck st cm).2
  = st.2 ++ match accepted unmarshalAck cm.2 with
            | Some _ => [ cm_Offset cm.2 ]
            | None => []
            end.
Proof.
  destruct cm as [clock msg]. unfold consume_ack. simpl.
  destruct (accepted unmarshalAck msg); simpl; [done|by rewrite app_nil_r].
Qed.

(** The offsets marked by [ConsumeClaim] are those of the accepted
    records, in order. *)
Lemma ConsumeClaim_marks (input : list (Z * ConsumerMessage)) (st : Cache * Session) :
  (ConsumeClaim unmarshalAck st input).2
  = st.2 ++ map (fun cm => cm_Offset cm.2)
             (filter (fun cm => is_Some (accepted unmarshalAck cm.2)) input).
Proof.
  unfold ConsumeClaim. revert st.
  induction input as [|cm input IH]; intros st; simpl; [by rewrite app_nil_r|].
  rewrite IH, consume_ack_marks, filter_cons.
  destruct (accepted unmarshalAck cm.2) eqn:Hacc.
  - rewrite decide_True by (by eexists). simpl. by rewrite <- app_assoc.
  - rewrite decide_False by (by intros [? ?]). by rewrite app_nil_r.
Qed.

(** After a claim, the record at [offset] comes again exactly when the
    group resumed at or before it and every accepted record of the claim
    lies before it. *)
Lemma redelivered_after_claim (c : Cache) (input : list (Z * ConsumerMessage))
    (initial offset : Z) :
  redelivered initial (ConsumeClaim unmarshalAck (c, []) input).2 offset = true
  <-> initial <= offset
      /\ Forall (fun cm => is_Some (accepted unmarshalAck cm.2) -> cm_Offset cm.2 < offset)
           input.
Proof.
  rewrite redelivered_iff, ConsumeClaim_marks. simpl.
  apply and_iff_compat_l.
  induction input as [|cm input IH]; simpl.
  - split; constructor.
  - rewrite filter_cons.
    destruct (decide (is_Some (accepted unmarshalAck cm.2))) as [Hacc|Hrej].
    + simpl. rewrite !Forall_cons, IH. tauto.
    + rewrite Forall_cons, IH. tauto.
Qed.

(** C9 (amended): the ack consumer caches an ack under its trace id and
    marks the offset of its record exactly when the value decodes and the
    trace id is not empty; any other record leaves the cache and the
    session as they were; the offsets marked over a claim are those of
    the accepted records; and after a claim a record comes again after a
    restart exactly when the group resumed at or before its offset and
    every accepted record of the claim lies before it. *)
Theorem ack_consumer_caches_and_marks_accepted_acks :
  (forall st clock msg a,
      unmarshalAck (cm_Value msg) = Some a -> a_TraceID a <> "" ->
      consume_ack unmarshalAck st (clock, msg)
      = (putAck clock a st.1, st.2 ++ [ cm_Offset msg ])
      /\ resultCache (consume_ack unmarshalAck st (clock, msg)).1 !! a_TraceID a = Some a)
  /\ (forall st clock msg,
        (unmarshalAck (cm_Value msg) = None
         \/ exists a, unmarshalAck (cm_Value msg) = Some a /\ a_TraceID a = "") ->
        consume_ack unmarshalAck st (clock, msg) = st)
  /\ (forall st input,
        (ConsumeClaim unmarshalAck st input).2
        = st.2 ++ map (fun cm => cm_Offset cm.2)
                    (filter (fun cm => is_Some (accepted unmarshalAck cm.2)) input))
  /\ (forall c input initial offset,
        redelivered initial (ConsumeClaim unmarshalAck (c, []) input).2 offset = true
        <-> initial <= offset
            /\ Forall (fun cm => is_Some (accepted unmarshalAck cm.2) ->
                                 cm_Offset cm.2 < offset) input).
Proof.
  split; [|split; [|split]].
  - intros st clock msg a Hdec Hne. unfold consume_ack, accepted. rewrite Hdec.
    rewrite decide_False by done. split; [done|]. simpl. apply lookup_insert_eq.
  - intros st clock msg H. unfold consume_ack, accepted.
    destruct H as [-> | (a & -> & Hempty)]; [done|]. by rewrite decide_True.
  - intros. apply ConsumeClaim_marks.
  - intros. apply redelivered_after_claim.
Qed.

(** A pass of the sweeper changes no lookup made at the same clock reading:
    an entry it removes was already read as absent. *)
Lemma getAck_sweep (clock : Z) (id : string) (c : Cache) :
  getAck clock id (sweep clock c) = getAck clock id c.
Proof.
  unfold getAck, expired, sweep. simpl.
  destruct (resultCache c !! id) as [a|] eqn:Ha.
  - destruct (resultExpires c !! id) as [exp|] eqn:He.
    + destruct (Z.ltb_spec exp clock) as [Hlt|Hge].
      * rewrite (proj2 (map_lookup_filter_None _ (resultCache c) id)); [done|].
        right. intros a' _ Hdead. simpl in Hdead.
        apply map_lookup_filter_None in Hdead as [Hnone|Hno]; [congruence|].
        by apply (Hno exp He).
      * rewrite (proj2 (map_lookup_filter_Some _ (resultCache c) id a)).
        2:{ split; [done|]. simpl. apply map_lookup_filter_None. right.
            intros exp' He'. simpl. simplify_eq. lia. }
        rewrite (proj2 (map_lookup_filter_Some _ (resultExpires c) id exp)).
        2:{ split; [done|]. simpl. lia. }
        by rewrite (proj2 (Z.ltb_ge exp clock) Hge).
    + destruct (filter _ (resultCache c) !! id); [|done].
      rewrite (proj2 (map_lookup_filter_None _ (resultExpires c) id)); [done|].
      by left.
  - rewrite (proj2 (map_lookup_filter_None _ (resultCache c) id)); [done|]. by left.
Qed.

End GatewayProps.

(** An ack read back at the very end of its lifetime. *)
Lemma getAck_putAck_witness :
  Gateway.getAck Gateway.cacheTTL "t-create"
    (Gateway.putAck 0 Samples.created_ack Gateway.empty_cache)
  = Some Samples.created_ack.
Proof.
  apply (getAck_putAck 0 Gateway.cacheTTL Samples.created_ack Gateway.empty_cache).
  vm_compute. discriminate.
Defined.

(** A request that finds the ack at its second lookup. *)
Lemma operation_result_is_200_or_204_witness :
  Gateway.operationResultHandler "t-create"
    (Gateway.mkSnapshot 5 Gateway.empty_cache)
    [ Gateway.mkSnapshot 10 (Gateway.putAck 7 Samples.created_ack Gateway.empty_cache) ]
  = Gateway.mkResponse 200 (Some Samples.created_ack).
Proof.
  apply (proj1 operation_result_is_200_or_204 "t-create"
           (Gateway.mkSnapshot 5 Gateway.empty_cache)
           [ Gateway.mkSnapshot 10 (Gateway.putAck 7 Samples.created_ack Gateway.empty_cache) ]
           [ Gateway.mkSnapshot 5 Gateway.empty_cache ]
           (Gateway.mkSnapshot 10 (Gateway.putAck 7 Samples.created_ack Gateway.empty_cache))
           []).
  - reflexivity.
  - intros s' Hin. apply list_elem_of_singleton in Hin as ->. reflexivity.
  - vm_compute. reflexivity.
Defined.

(** The ack consumer on a good ack and on an ack without a trace id. *)
Lemma ack_consumer_caches_and_marks_accepted_acks_witness :
  Gateway.consume_ack Samples.unmarshalAck (Gateway.empty_cache, [])
    (6, Samples.ack_record 1 (Samples.json_ack Samples.created_ack Samples.created_fields))
  = (Gateway.putAck 6 Samples.created_ack Gateway.empty_cache, [ 1 ])
  /\ Gateway.consume_ack Samples.unmarshalAck (Gateway.empty_cache, [])
       (5, Samples.ack_record 0 "{}")
     = (Gateway.empty_cache, []).
Proof.
  destruct (ack_consumer_caches_and_marks_accepted_acks Samples.unmarshalAck)
    as (Hgood & Hbad & _).
  split.
  - apply (Hgood (Gateway.empty_cache, []) 6
             (Samples.ack_record 1 (Samples.json_ack Samples.created_ack Samples.created_fields))
             Samples.created_ack); [reflexivity | discriminate].
  - apply (Hbad (Gateway.empty_cache, []) 5 (Samples.ack_record 0 "{}")).
    right. exists Samples.anonymous_ack. split; reflexivity.
Defined.

(** C8 (counterexample): the ack was cached at time 0 and the request
    arrives after its expiry; the answer is 204, not 410. *)
Lemma expired_result_is_answered_204 :
  Gateway.operationResultHandler "t-create"
    (Gateway.mkSnapshot (Gateway.cacheTTL + 1)
       (Gateway.putAck 0 Samples.created_ack Gateway.empty_cache)) []
  = Gateway.mkResponse 204 None
  /\ Gateway.StatusNoContent <> Gateway.StatusGone.
Proof. split; [vm_compute; reflexivity | discriminate]. Qed.

(** C9 (counterexample): a record that is not JSON at offset 0 is followed
    by a good ack at offset 1; only offset 1 is marked, the group resumes
    at offset 2, and the record at offset 0 does not come again. *)
Lemma skipped_ack_is_not_redelivered :
  Gateway.ConsumeClaim Samples.unmarshalAck (Gateway.empty_cache, [])
    [ (5, Samples.ack_record 0 Samples.not_json);
      (6, Samples.ack_record 1 (Samples.json_ack Samples.created_ack Samples.created_fields)) ]
  = (Gateway.putAck 6 Samples.created_ack Gateway.empty_cache, [ 1 ])
  /\ Gateway.committed_offset 0 [ 1 ] = 2
  /\ Gateway.redelivered 0 [ 1 ] 0 = false.
Proof. repeat split; vm_compute; reflexivity. Qed.

(** * Further properties *)

(** ** The HTTP handlers of the API server *)

Section HandlerProps.

Import Handlers.

Variable decodeBody : string -> option string.
Variable TrimSpace : string -> string.

Lemma substring_all (s : string) : substring 0 (String.length s) s = s.
Proof. induction s as [|c s IH]; simpl; [done|by rewrite IH]. Qed.

Lemma prefix_app (p rest : string) : String.prefix p (p +:+ rest) = true.
Proof.
  induction p as [|c p IH]; simpl; [by destruct rest|].
  by destruct (Ascii.ascii_dec c c).
Qed.

(** [TrimPrefix] undoes the concatenation with the prefix. *)
Lemma TrimPrefix_app (p rest : string) : GoStrings.TrimPrefix (p +:+ rest) p = rest.
Proof.
  unfold GoStrings.TrimPrefix, GoStrings.HasPrefix. rewrite prefix_app.
  induction p as [|c p IH]; simpl.
  - rewrite Nat.sub_0_r. apply substring_all.
  - exact IH.
Qed.

Lemma enqueueCommand_sent send_ok ids topic cmd payload reply pm :
  enqueueCommand send_ok ids topic cmd payload = (reply, Some pm) ->
  pm = mkProducerMessage topic (new_idemp ids)
         (mkCommand (new_trace ids) cmd "Message" payload)
         [ mkHeader "trace_id" (new_trace ids); mkHeader "command" cmd ].
Proof. unfold enqueueCommand. by intros [= _ <-]. Qed.

(** Whatever the request, the reply of either handler goes with what it
    did: PENDING with the new trace id when the record was sent, 503 when
    the send failed, 400 or 405 when nothing was handed to the producer. *)
Theorem reply_goes_with_enqueue (send_ok : bool) (ids : Ids) (cmdTopic : string)
    (r : Request) :
  reply_matches send_ok ids
    (createMessageHandler decodeBody TrimSpace send_ok ids cmdTopic r)
  /\ reply_matches send_ok ids
       (messageByIDHandler decodeBody TrimSpace send_ok ids cmdTopic r).
Proof.
  unfold reply_matches, createMessageHandler, messageByIDHandler, enqueueCommand.
  split; repeat case_decide; try destruct (valid_body _ _ r); simpl; auto.
Qed.

(** Every record either handler hands to the producer goes to the command
    topic under the new idempotency id, carries the new trace id in its
    value and in its [trace_id] header, has resource Message, and names one
    of the four operations the worker supports. *)
Theorem handlers_enqueue_supported_commands (send_ok : bool) (ids : Ids)
    (cmdTopic : string) (r : Request) (reply : Reply) (pm : ProducerMessage Command) :
  createMessageHandler decodeBody TrimSpace send_ok ids cmdTopic r = (reply, Some pm)
  \/ messageByIDHandler decodeBody TrimSpace send_ok ids cmdTopic r = (reply, Some pm) ->
  pm_Topic pm = cmdTopic
  /\ pm_Key pm = new_idemp ids
  /\ c_TraceID (pm_Value pm) = new_trace ids
  /\ c_Resource (pm_Value pm) = "Message"
  /\ c_Command (pm_Value pm) ∈ [ "Create"; "Read"; "Update"; "Delete" ]
  /\ pm_Headers pm = [ mkHeader "trace_id" (new_trace ids);
                       mkHeader "command" (c_Command (pm_Value pm)) ].
Proof.
  unfold createMessageHandler, messageByIDHandler.
  intros [H|H]; repeat case_decide; try destruct (valid_body _ _ r); try done;
    apply enqueueCommand_sent in H; subst pm; simpl;
    repeat split; set_solver.
Qed.

(** A message that either handler sends on is the message of the request
    body as it was decoded, untrimmed, and it is not blank. *)
Theorem sent_messages_are_not_blank (send_ok : bool) (ids : Ids) (cmdTopic : string)
    (r : Request) (reply : Reply) (pm : ProducerMessage Command) (v : any) :
  createMessageHandler decodeBody TrimSpace send_ok ids cmdTopic r = (reply, Some pm)
  \/ messageByIDHandler decodeBody TrimSpace send_ok ids cmdTopic r = (reply, Some pm) ->
  c_Payload (pm_Value pm) !! "message" = Some v ->
  exists m, v = AString m /\ decodeBody (Body r) = Some m /\ TrimSpace m <> "".
Proof.
  assert (Hvalid : forall m, valid_body decodeBody TrimSpace r = Some m ->
                             decodeBody (Body r) = Some m /\ TrimSpace m <> "").
  { unfold valid_body. intros m. destruct (decodeBody (Body r)) as [m'|]; [|done].
    case_decide; [done|]. by intros [= ->]. }
  unfold createMessageHandler, messageByIDHandler.
  intros [H|H]; repeat case_decide;
    try destruct (valid_body _ _ r) as [m|] eqn:Hb; try done;
    apply enqueueCommand_sent in H; subst pm; simpl; intros Hv;
    try (rewrite lookup_singleton_ne in Hv by done; done).
  - rewrite lookup_singleton_eq in Hv. injection Hv as <-.
    exists m. by destruct (Hvalid m eq_refl).
  - rewrite lookup_insert_eq in Hv. injection Hv as <-.
    exists m. by destruct (Hvalid m eq_refl).
Qed.

(** The id of a by-id request is the rest of the path after /v1/messages/,
    passed on as it is. *)
Theorem by_id_passes_path_suffix (send_ok : bool) (ids : Ids) (cmdTopic id : string)
    (r : Request) (reply : Reply) (pm : ProducerMessage Command) :
  URLPath r = "/v1/messages/" +:+ id ->
  messageByIDHandler decodeBody TrimSpace send_ok ids cmdTopic r = (reply, Some pm) ->
  c_Payload (pm_Value pm) !! "id" = Some (AString id).
Proof.
  intros Hpath. unfold messageByIDHandler. rewrite Hpath, TrimPrefix_app.
  intros H; repeat case_decide; try destruct (valid_body _ _ r); try done;
    apply enqueueCommand_sent in H; subst pm; simpl.
  - apply lookup_singleton_eq.
  - rewrite lookup_insert_ne by done. apply lookup_singleton_eq.
  - apply lookup_singleton_eq.
Qed.

End HandlerProps.

(** The create handler on a POST of the message hello. *)
Lemma handlers_enqueue_supported_commands_witness :
  pm_Topic (mkProducerMessage "messages.commands" "k1"
              (mkCommand "t-create" "Create" "Message" {[ "message" := AString "hello" ]})
              [ mkHeader "trace_id" "t-create"; mkHeader "command" "Create" ])
  = "messages.commands"
  /\ pm_Key (mkProducerMessage "messages.commands" "k1"
               (mkCommand "t-create" "Create" "Message" {[ "message" := AString "hello" ]})
               [ mkHeader "trace_id" "t-create"; mkHeader "command" "Create" ])
     = "k1".
Proof.
  pose proof (handlers_enqueue_supported_commands MoreSamples.decodeBody
                MoreSamples.TrimSpace true MoreSamples.ids "messages.commands"
                MoreSamples.post_hello (Handlers.Accepted "t-create" "PENDING")
                (mkProducerMessage "messages.commands" "k1"
                   (mkCommand "t-create" "Create" "Message"
                      {[ "message" := AString "hello" ]})
                   [ mkHeader "trace_id" "t-create"; mkHeader "command" "Create" ])
                (or_introl eq_refl)) as (Ht & Hk & _).
  split; [exact Ht | exact Hk].
Defined.

(** The message of that POST, as it is sent on. *)
Lemma sent_messages_are_not_blank_witness :
  exists m, AString "hello" = AString m
            /\ MoreSamples.decodeBody (Handlers.Body MoreSamples.post_hello) = Some m
            /\ MoreSamples.TrimSpace m <> "".
Proof.
  apply (sent_messages_are_not_blank MoreSamples.decodeBody MoreSamples.TrimSpace true
           MoreSamples.ids "messages.commands" MoreSamples.post_hello
           (Handlers.Accepted "t-create" "PENDING")
           (mkProducerMessage "messages.commands" "k1"
              (mkCommand "t-create" "Create" "Message" {[ "message" := AString "hello" ]})
              [ mkHeader "trace_id" "t-create"; mkHeader "command" "Create" ])
           (AString "hello") (or_introl eq_refl)).
  reflexivity.
Defined.

(** A GET of /v1/messages/abc. *)
Lemma by_id_passes_path_suffix_witness :
  c_Payload (mkCommand "t-read" "Read" "Message" {[ "id" := AString "abc" ]}) !! "id"
  = Some (AString "abc").
Proof.
  apply (by_id_passes_path_suffix MoreSamples.decodeBody MoreSamples.TrimSpace true
           MoreSamples.read_ids "messages.commands" "abc" MoreSamples.get_abc
           (Handlers.Accepted "t-read" "PENDING")
           (mkProducerMessage "messages.commands" "k9"
              (mkCommand "t-read" "Read" "Message" {[ "id" := AString "abc" ]})
              [ mkHeader "trace_id" "t-read"; mkHeader "command" "Read" ]));
    reflexivity.
Defined.

(** ** From the request to the result: gateway, worker, ack consumer *)

Section EndToEnd.

Import Handlers.

Variable decodeBody : string -> option string.
Variable TrimSpace : string -> string.
Variable marshalCommand : Command -> string.
Variable unmarshalCommand : string -> option Command.
Variable marshalAck : Ack -> string.
Variable unmarshalAck : string -> option Ack.

(** A POST of a message, served while everything works: the caller is
    given the trace id; the worker, on the first delivery of the record,
    inserts the message under the next id and sends a SUCCESS ack; once the
    ack consumer has read that ack at time [t], a GET of the operation at
    any time up to [t + cacheTTL] answers 200 with it. *)
Theorem create_end_to_end (ids : Ids) (cmdTopic ackTopic m : string) (r : Request)
    (db : Worker.DB) (off off' t t' : Z) (c : Gateway.Cache) (a' : Ack)
    (rest : list Gateway.Snapshot) :
  Method r = "POST" -> decodeBody (Body r) = Some m -> TrimSpace m <> "" ->
  new_idemp ids <> "" ->
  Worker.idempotency_keys (Worker.tables db) !! new_idemp ids = None ->
  unmarshalCommand
    (marshalCommand (mkCommand (new_trace ids) "Create" "Message" {[ "message" := AString m ]}))
  = Some (mkCommand (new_trace ids) "Create" "Message" {[ "message" := AString m ]}) ->
  unmarshalAck
    (marshalAck (mkAck (new_trace ids) "SUCCESS" "MessageCreated"
                   (<[ "message" := AString m ]> {[ "id" := AInt64 (Worker.next_id db) ]})
                   None))
  = Some a' ->
  a_TraceID a' = new_trace ids -> new_trace ids <> "" ->
  t' <= t + Gateway.cacheTTL ->
  exists pm ackMsg db',
    createMessageHandler decodeBody TrimSpace true ids cmdTopic r
    = (Accepted (new_trace ids) "PENDING", Some pm)
    /\ Worker.consume_one unmarshalCommand ackTopic db
         (Worker.mkDelivery (on_wire marshalCommand off pm) Worker.no_faults true)
       = (db', [ Worker.Produced ackMsg; Worker.Marked off ])
    /\ Worker.messages (Worker.tables db')
       = <[ Worker.next_id db := m ]> (Worker.messages (Worker.tables db))
    /\ Gateway.operationResultHandler (new_trace ids)
         (Gateway.mkSnapshot t'
            (Gateway.consume_ack unmarshalAck (c, [])
               (t, on_wire marshalAck off' ackMsg)).1)
         rest
       = Gateway.mkResponse 200 (Some a').
Proof.
  intros Hpost Hbody Hblank Hidemp Hfresh Hcmd Hack Htrace Hne Hle.
  destruct db as [tb n]. simpl in *.
  eexists _,
    (mkProducerMessage ackTopic (new_idemp ids)
       (mkAck (new_trace ids) "SUCCESS" "MessageCreated"
          (<[ "message" := AString m ]> {[ "id" := AInt64 n ]}) None) []), _.
  split; [|split; [|split]].
  - unfold createMessageHandler, valid_body. rewrite Hpost, Hbody.
    rewrite decide_True by done. rewrite decide_False by done. reflexivity.
  - unfold Worker.consume_one, on_wire. cbn [Worker.d_msg cm_Value pm_Value].
    rewrite Hcmd.
    unfold Worker.withTx, Worker.tx_body, Worker.checkIdempotent, Worker.dispatch,
      Worker.exec_insert, Worker.logSaga, Worker.markIdempotent, Worker.idem_key.
    simpl.
    rewrite decide_False by done.
    rewrite bool_decide_eq_false_2 by (rewrite Hfresh; by intros [? ?]).
    simpl. rewrite Hfresh. reflexivity.
  - reflexivity.
  - unfold Gateway.consume_ack, Gateway.accepted, on_wire.
    cbn [cm_Value pm_Value]. rewrite Hack.
    rewrite decide_False by (rewrite Htrace; done). cbn [fst].
    assert (Hget : Gateway.getAck t' (new_trace ids) (Gateway.putAck t a' c) = Some a').
    { unfold Gateway.getAck, Gateway.expired, Gateway.putAck. simpl.
      rewrite Htrace, !lookup_insert_eq.
      by rewrite (proj2 (Z.ltb_ge (t + Gateway.cacheTTL) t') Hle). }
    destruct rest; simpl; by rewrite Hget.
Qed.


End EndToEnd.

(** A POST of hello on an empty database, its ack read at time 10 and the
    operation asked for at time 20. *)
Lemma create_end_to_end_witness :
  exists pm ackMsg db',
    Handlers.createMessageHandler MoreSamples.decodeBody MoreSamples.TrimSpace true
      MoreSamples.ids "messages.commands" MoreSamples.post_hello
    = (Handlers.Accepted "t-create" "PENDING", Some pm)
    /\ Worker.consume_one MoreSamples.unmarshalCommand "messages.acks" Samples.empty_db
         (Worker.mkDelivery (on_wire MoreSamples.marshalCommand 0 pm) Worker.no_faults true)
       = (db', [ Worker.Produced ackMsg; Worker.Marked 0 ])
    /\ Worker.messages (Worker.tables db') = <[ 1 := "hello" ]> ∅
    /\ Gateway.operationResultHandler "t-create"
         (Gateway.mkSnapshot 20
            (Gateway.consume_ack Samples.unmarshalAck (Gateway.empty_cache, [])
               (10, on_wire MoreSamples.marshalAck 0 ackMsg)).1)
         []
       = Gateway.mkResponse 200 (Some Samples.created_ack).
Proof.
  apply (create_end_to_end MoreSamples.decodeBody MoreSamples.TrimSpace
           MoreSamples.marshalCommand MoreSamples.unmarshalCommand
           MoreSamples.marshalAck Samples.unmarshalAck
           MoreSamples.ids "messages.commands" "messages.acks" "hello"
           MoreSamples.post_hello Samples.empty_db 0 0 10 20 Gateway.empty_cache
           Samples.created_ack []);
    try reflexivity; discriminate.
Defined.


(** ** The worker over a whole claim *)

Section WorkerClaimProps.

Import Worker.

Variable unmarshalCommand : string -> option Command.
Variable ackTopic : string.

Lemma logSaga_frame f tx t s st c d :
  counter (logSaga f tx t s st c d) = counter tx
  /\ exists rows, saga_log (view (logSaga f tx t s st c d)) = saga_log (view tx) ++ rows
                  /\ (length rows <= 1)%nat.
Proof.
  unfold logSaga. destruct (f_saga f); simpl; (split; [reflexivity|]).
  - exists []. rewrite app_nil_r. split; [done|simpl; lia].
  - eexists [_]. split; [reflexivity|]. simpl. lia.
Qed.

Lemma exec_frame f tx m id tx1 r :
  exec_insert f tx m = (tx1, r) \/ exec_update f tx m id = (tx1, r)
  \/ exec_delete f tx id = (tx1, r) ->
  counter tx <= counter tx1
  /\ (ids_below_counter (mkDB (view tx) (counter tx)) ->
      ids_below_counter (mkDB (view tx1) (counter tx1)))
  /\ saga_log (view tx1) = saga_log (view tx).
Proof.
  unfold exec_insert, exec_update, exec_delete, ids_below_counter. simpl.
  intros [H|[H|H]]; destruct (f_stmt f); try (injection H as <- <-; by (split; [lia|])).
  - injection H as <- <-. simpl. split; [lia|]. split; [|done].
    intros Hinv. apply map_Forall_insert_2; [lia|].
    eapply map_Forall_impl; [exact Hinv|]. simpl. intros; lia.
  - destruct (messages (view tx) !! id) as [old|] eqn:Hrow;
      [|injection H as <- <-; by (split; [lia|])].
    case_decide; injection H as <- <-; simpl; (split; [lia|]); split; try done.
    intros Hinv. apply map_Forall_insert_2; [|done]. exact (Hinv _ _ Hrow).
  - destruct (messages (view tx) !! id) as [old|] eqn:Hrow;
      injection H as <- <-; simpl; (split; [lia|]); split; try done.
    intros Hinv. by apply map_Forall_delete.
Qed.

(** What the switch leaves as it was, whatever the command. *)
Lemma dispatch_frame f cmd tx l tx1 l1 ret :
  dispatch f cmd tx l = (tx1, l1, ret) ->
  counter tx <= counter tx1
  /\ (ids_below_counter (mkDB (view tx) (counter tx)) ->
      ids_below_counter (mkDB (view tx1) (counter tx1)))
  /\ (exists rows, saga_log (view tx1) = saga_log (view tx) ++ rows
                   /\ (length rows <= 1)%nat).
Proof.
  assert (Hlog : forall tx0 t s st c d,
            counter tx <= counter tx0 ->
            (ids_below_counter (mkDB (view tx) (counter tx)) ->
             ids_below_counter (mkDB (view tx0) (counter tx0))) ->
            saga_log (view tx0) = saga_log (view tx) ->
            counter tx <= counter (logSaga f tx0 t s st c d)
            /\ (ids_below_counter (mkDB (view tx) (counter tx)) ->
                ids_below_counter (mkDB (view (logSaga f tx0 t s st c d))
                                     (counter (logSaga f tx0 t s st c d))))
            /\ (exists rows, saga_log (view (logSaga f tx0 t s st c d))
                             = saga_log (view tx) ++ rows /\ (length rows <= 1)%nat)).
  { intros tx0 t s st c d Hc Hinv Hs.
    destruct (logSaga_frame f tx0 t s st c d) as (Hc' & rows & Hrows & Hlen).
    rewrite Hc'. split; [done|]. split.
    - intros H. specialize (Hinv H). unfold ids_below_counter in *. simpl in *.
      by rewrite logSaga_messages.
    - exists rows. by rewrite Hrows, Hs. }
  assert (Hsame : forall t s st c d,
            counter tx <= counter (logSaga f tx t s st c d)
            /\ (ids_below_counter (mkDB (view tx) (counter tx)) ->
                ids_below_counter (mkDB (view (logSaga f tx t s st c d))
                                     (counter (logSaga f tx t s st c d))))
            /\ (exists rows, saga_log (view (logSaga f tx t s st c d))
                             = saga_log (view tx) ++ rows /\ (length rows <= 1)%nat)).
  { intros. apply Hlog; [lia|done|done]. }
  unfold dispatch. repeat case_decide.
  - destruct (exec_insert _ _ _) as [tx2 r] eqn:Hx.
    destruct (exec_frame f tx _ 0 tx2 r (or_introl Hx)) as (Hc & Hinv & Hs).
    destruct r; intros [= <- <- <-]; by apply Hlog.
  - destruct (query_message _ _ _) as [[mid text]|]; intros [= <- <- <-]; apply Hsame.
  - destruct (exec_update _ _ _ _) as [tx2 r] eqn:Hx.
    destruct (exec_frame f tx _ _ tx2 r (or_intror (or_introl Hx))) as (Hc & Hinv & Hs).
    destruct r; [|case_decide]; intros [= <- <- <-]; by apply Hlog.
  - destruct (exec_delete _ _ _) as [tx2 r] eqn:Hx.
    destruct (exec_frame f tx "" _ tx2 r (or_intror (or_intror Hx))) as (Hc & Hinv & Hs).
    destruct r; [|case_decide]; intros [= <- <- <-]; by apply Hlog.
  - intros [= <- <- <-]. split; [lia|]. split; [done|]. exists [].
    rewrite app_nil_r. split; [done|simpl; lia].
Qed.

(** The locals after the switch: SUCCESS without an error, or FAILURE with
    one of the three codes of the switch. *)
Lemma dispatch_locals f cmd tx tx1 l1 ret :
  dispatch f cmd tx init_locals = (tx1, l1, ret) ->
  (status l1 = "SUCCESS" /\ e l1 = None)
  \/ (status l1 = "FAILURE"
      /\ exists c d, e l1 = Some (mkError c d)
                     /\ c ∈ [ "DB_ERROR"; "NOT_FOUND"; "UNSUPPORTED" ]).
Proof.
  unfold dispatch. repeat case_decide;
    repeat case_match; intros [= <- <- <-]; simpl;
    first [ by left | right; split; [done|]; do 2 eexists; split; [done|]; set_solver ].
Qed.

Lemma markIdempotent_frame f tx key trace st tx1 err :
  markIdempotent f tx key trace st = (tx1, err) ->
  counter tx1 = counter tx
  /\ messages (view tx1) = messages (view tx)
  /\ saga_log (view tx1) = saga_log (view tx)
  /\ idempotency_keys (view tx) ⊆ idempotency_keys (view tx1).
Proof.
  unfold markIdempotent. destruct (f_mark f); [by intros [= <- <-]|].
  intros [= <- <-]. simpl. repeat split.
  destruct (idempotency_keys (view tx) !! key) eqn:Hk; [done|].
  by apply insert_subseteq.
Qed.

Lemma tx_body_frame f msg cmd tx tx1 l1 err :
  tx_body f msg cmd tx = (tx1, l1, err) ->
  counter tx <= counter tx1
  /\ (ids_below_counter (mkDB (view tx) (counter tx)) ->
      ids_below_counter (mkDB (view tx1) (counter tx1)))
  /\ (exists rows, saga_log (view tx1) = saga_log (view tx) ++ rows
                   /\ (length rows <= 1)%nat)
  /\ idempotency_keys (view tx) ⊆ idempotency_keys (view tx1)
  /\ ((status l1 = "SUCCESS" /\ e l1 = None)
      \/ (status l1 = "FAILURE"
          /\ exists c d, e l1 = Some (mkError c d)
                         /\ c ∈ [ "DB_ERROR"; "NOT_FOUND"; "UNSUPPORTED" ])).
Proof.
  assert (Hnil : exists rows : list SagaRow,
             saga_log (view tx) = saga_log (view tx) ++ rows /\ (length rows <= 1)%nat).
  { exists []. rewrite app_nil_r. split; [done|simpl; lia]. }
  unfold tx_body, checkIdempotent.
  destruct (f_check f);
    [intros [= <- <- <-]; split_and!; first [lia | done | by left]|].
  case_bool_decide;
    [intros [= <- <- <-]; split_and!; first [lia | done | by left]|].
  destruct (dispatch _ _ _ _) as [[tx2 l2] ret] eqn:Hd.
  pose proof (dispatch_locals _ _ _ _ _ _ Hd) as Hl.
  pose proof (dispatch_spec _ _ _ _ _ _ _ Hd) as [Hk _].
  apply dispatch_frame in Hd as (Hc & Hinv & Hrows).
  destruct ret.
  - intros [= <- <- <-]. repeat split; try done. by rewrite Hk.
  - destruct (markIdempotent _ _ _ _ _) as [tx3 err3] eqn:Hm.
    apply markIdempotent_frame in Hm as (Hc3 & Hm3 & Hs3 & Hk3).
    intros [= <- <- <-]. rewrite Hc3, Hs3. repeat split; try done.
    + intros Hq. specialize (Hinv Hq). unfold ids_below_counter in *. simpl in *.
      by rewrite Hm3.
    + by rewrite <- Hk.
Qed.

(** One delivery: the counter does not go back, ids stay below it, the
    saga log grows at its end by at most one row, and the rows of the
    idempotency table stay as they are. *)
Lemma consume_one_frame (db : DB) (d : Delivery) :
  next_id db <= next_id (consume_one unmarshalCommand ackTopic db d).1
  /\ (ids_below_counter db ->
      ids_below_counter (consume_one unmarshalCommand ackTopic db d).1)
  /\ (exists rows,
        saga_log (tables (consume_one unmarshalCommand ackTopic db d).1)
        = saga_log (tables db) ++ rows /\ (length rows <= 1)%nat)
  /\ idempotency_keys (tables db)
     ⊆ idempotency_keys (tables (consume_one unmarshalCommand ackTopic db d).1).
Proof.
  assert (Hnil : exists rows : list SagaRow,
             saga_log (tables db) = saga_log (tables db) ++ rows /\ (length rows <= 1)%nat).
  { exists []. rewrite app_nil_r. split; [done|simpl; lia]. }
  unfold consume_one.
  destruct (unmarshalCommand (cm_Value (d_msg d))) as [cmd|]; simpl;
    [|repeat split; try done; lia].
  unfold withTx. destruct (f_begin (d_faults d)); simpl;
    [repeat split; try done; lia|].
  destruct (tx_body _ _ _ _) as [[tx1 l1] err] eqn:Hb.
  apply tx_body_frame in Hb as (Hc & Hinv & Hrows & Hk & _). simpl in *.
  assert (Hback : ids_below_counter db -> ids_below_counter (mkDB (tables db) (counter tx1))).
  { unfold ids_below_counter. simpl. intros H.
    eapply map_Forall_impl; [exact H|]. simpl. intros; lia. }
  destruct db as [tb n]. simpl in *.
  destruct err; [|destruct (f_commit (d_faults d))]; simpl; repeat split; done.
Qed.

Lemma ConsumeClaim_cons (db : DB) (d : Delivery) (ds : list Delivery) :
  ConsumeClaim unmarshalCommand ackTopic db (d :: ds)
  = ((ConsumeClaim unmarshalCommand ackTopic
        (consume_one unmarshalCommand ackTopic db d).1 ds).1,
     (consume_one unmarshalCommand ackTopic db d).2
       ++ (ConsumeClaim unmarshalCommand ackTopic
             (consume_one unmarshalCommand ackTopic db d).1 ds).2).
Proof.
  cbn [ConsumeClaim]. destruct (consume_one _ _ _ _) as [db1 ev1]. simpl.
  by destruct (ConsumeClaim _ _ _ _).
Qed.

(** Over a claim every row of [messages] keeps an id below the
    AUTO_INCREMENT counter and the counter never goes back: the id the
    next Create takes is that of no row. *)
Theorem claim_keeps_ids_below_counter (db : DB) (ds : list Delivery) :
  ids_below_counter db ->
  ids_below_counter (ConsumeClaim unmarshalCommand ackTopic db ds).1
  /\ next_id db <= next_id (ConsumeClaim unmarshalCommand ackTopic db ds).1
  /\ messages (tables (ConsumeClaim unmarshalCommand ackTopic db ds).1)
       !! next_id (ConsumeClaim unmarshalCommand ackTopic db ds).1 = None.
Proof.
  intros Hinv.
  assert (H : ids_below_counter (ConsumeClaim unmarshalCommand ackTopic db ds).1
              /\ next_id db <= next_id (ConsumeClaim unmarshalCommand ackTopic db ds).1).
  { revert db Hinv. induction ds as [|d ds IH]; intros db Hinv; [simpl; split; [done|lia]|].
    rewrite ConsumeClaim_cons. cbn [fst].
    destruct (consume_one_frame db d) as (Hc & Hi & _).
    destruct (IH _ (Hi Hinv)) as [Hi' Hc']. split; [done|lia]. }
  destruct H as [Hi Hc]. split; [done|]. split; [done|].
  destruct (messages _ !! _) as [m|] eqn:Hrow; [|done].
  specialize (Hi _ _ Hrow). simpl in Hi. lia.
Qed.

(** Over a claim the saga log only grows at its end, by at most one row
    for each record. *)
Theorem saga_log_is_append_only (db : DB) (ds : list Delivery) :
  exists rows,
    saga_log (tables (ConsumeClaim unmarshalCommand ackTopic db ds).1)
    = saga_log (tables db) ++ rows
    /\ (length rows <= length ds)%nat.
Proof.
  revert db. induction ds as [|d ds IH]; intros db.
  - exists []. simpl. rewrite app_nil_r. split; [done|lia].
  - rewrite ConsumeClaim_cons. cbn [fst].
    destruct (consume_one_frame db d) as (_ & _ & (r1 & Hr1 & Hl1) & _).
    destruct (IH (consume_one unmarshalCommand ackTopic db d).1) as (r2 & Hr2 & Hl2).
    exists (r1 ++ r2). rewrite Hr2, Hr1, <- app_assoc. split; [done|].
    rewrite length_app. simpl. lia.
Qed.

(** A row of the idempotency table, once written, is there after every
    later record with the status and the trace id it was written with. *)
Theorem idempotency_rows_are_kept (db : DB) (ds : list Delivery) :
  idempotency_keys (tables db)
  ⊆ idempotency_keys (tables (ConsumeClaim unmarshalCommand ackTopic db ds).1).
Proof.
  revert db. induction ds as [|d ds IH]; intros db; [done|].
  rewrite ConsumeClaim_cons. cbn [fst].
  destruct (consume_one_frame db d) as (_ & _ & _ & Hk).
  etrans; [exact Hk|apply IH].
Qed.

(** Over a claim the worker marks the records whose value decodes, all of
    them and in the order of the claim, and tries one ack for each, under
    the key of the record; the other records are passed by unmarked. *)
Theorem claim_marks_decodable_records (db : DB) (ds : list Delivery) :
  marked_offsets (ConsumeClaim unmarshalCommand ackTopic db ds).2
  = map (fun d => cm_Offset (d_msg d))
      (filter (fun d => is_Some (unmarshalCommand (cm_Value (d_msg d)))) ds)
  /\ map pm_Key (ack_attempts (ConsumeClaim unmarshalCommand ackTopic db ds).2)
     = map (fun d => cm_Key (d_msg d))
         (filter (fun d => is_Some (unmarshalCommand (cm_Value (d_msg d)))) ds).
Proof.
  revert db. induction ds as [|d ds IH]; intros db; [done|].
  rewrite ConsumeClaim_cons. cbn [snd].
  unfold marked_offsets, ack_attempts in *. rewrite !omap_app, map_app.
  destruct (IH (consume_one unmarshalCommand ackTopic db d).1) as [-> ->].
  rewrite filter_cons. unfold consume_one.
  destruct (unmarshalCommand (cm_Value (d_msg d))) as [cmd|] eqn:Hcmd.
  - rewrite decide_True by (by eexists).
    destruct (withTx _ _ _ _) as [[db' l] err]. by destruct (d_send_ok d).
  - rewrite decide_False by (by intros [? ?]). done.
Qed.

(** Every ack the worker sends says SUCCESS without an error, or FAILURE
    with an error of one of four codes; the code INTERNAL and the event
    Error mean that the transaction did not go through, and then the three
    tables are as they were before the record. *)
Theorem ack_status_goes_with_error (db : DB) (d : Delivery) (ack : ProducerMessage Ack) :
  ack ∈ ack_attempts (consume_one unmarshalCommand ackTopic db d).2 ->
  ((a_Status (pm_Value ack) = "SUCCESS" /\ a_Error (pm_Value ack) = None)
   \/ (a_Status (pm_Value ack) = "FAILURE"
       /\ exists c dt, a_Error (pm_Value ack) = Some (mkError c dt)
                       /\ c ∈ [ "DB_ERROR"; "NOT_FOUND"; "UNSUPPORTED"; "INTERNAL" ]))
  /\ (forall dt, a_Error (pm_Value ack) = Some (mkError "INTERNAL" dt) ->
                 a_Event (pm_Value ack) = "Error"
                 /\ tables (consume_one unmarshalCommand ackTopic db d).1 = tables db).
Proof.
  unfold consume_one.
  destruct (unmarshalCommand (cm_Value (d_msg d))) as [cmd|]; simpl;
    [|by intros ?%elem_of_nil].
  assert (Hcases : forall db' l err,
            withTx db (d_faults d) init_locals (tx_body (d_faults d) (d_msg d) cmd)
            = (db', l, err) ->
            (err <> None -> tables db' = tables db)
            /\ (err = None ->
                (status l = "SUCCESS" /\ e l = None)
                \/ (status l = "FAILURE"
                    /\ exists c dt, e l = Some (mkError c dt)
                                    /\ c ∈ [ "DB_ERROR"; "NOT_FOUND"; "UNSUPPORTED" ]))).
  { intros db' l err Htx. split; [by apply transaction_spec in Htx as [? _]|].
    revert Htx. unfold withTx. destruct (f_begin (d_faults d)); [by intros [= <- <- <-]|].
    destruct (tx_body _ _ _ _) as [[tx1 l1] err1] eqn:Hb.
    apply tx_body_frame in Hb as (_ & _ & _ & _ & Hl).
    destruct err1; [by intros [= <- <- <-]|].
    destruct (f_commit (d_faults d)); by intros [= <- <- <-]. }
  destruct (withTx _ _ _ _) as [[db' l] err] eqn:Htx.
  destruct (Hcases _ _ _ eq_refl) as [Herr Hok]. simpl.
  intros Hin.
  assert (ack = mkProducerMessage ackTopic (cm_Key (d_msg d)) (build_ack cmd l err) [])
    as ->.
  { destruct (d_send_ok d); simpl in Hin; by apply list_elem_of_singleton in Hin. }
  simpl. destruct err as [txt|]; simpl.
  - split.
    + right. split; [done|]. do 2 eexists. split; [done|]. (rewrite ?elem_of_cons, ?elem_of_nil in *; intuition congruence).
    + intros dt _. split; [done|]. by apply Herr.
  - destruct (Hok eq_refl) as [[Hs He]|(Hs & c & dt & He & Hc)].
    + split; [by left|]. intros dt. by rewrite He.
    + split.
      * right. split; [done|]. exists c, dt. split; [done|]. (rewrite ?elem_of_cons, ?elem_of_nil in *; intuition congruence).
      * intros dt'. rewrite He. intros [= -> _]. (rewrite ?elem_of_cons, ?elem_of_nil in *; intuition congruence).
Qed.

(** An Update of an id that has a row, on a healthy database and with the
    default DSN of the worker ([RowsAffected] counts the rows changed):
    when the new text differs from the stored one the row is rewritten, the
    key recorded and the ack is SUCCESS / MessageUpdated; when the text is
    the stored one no row counts as affected and the answer is NOT_FOUND,
    as for an id without a row. *)
Theorem update_of_existing_id (db : DB) (d : Delivery) (cmd : Command) (old : string) :
  unmarshalCommand (cm_Value (d_msg d)) = Some cmd ->
  c_Command cmd = "Update" ->
  d_faults d = no_faults ->
  idempotency_keys (tables db) !! idem_key (d_msg d) cmd = None ->
  messages (tables db) !! strconv.ParseInt_value (payload_string (c_Payload cmd) "id")
  = Some old ->
  consume_one unmarshalCommand ackTopic db d
  = if decide (old = payload_string (c_Payload cmd) "message") then
      (mkDB (mkTables (messages (tables db))
               (saga_log (tables db) ++
                  [ mkSagaRow (c_TraceID cmd) "UpdateMessage" "FAILURE" "NOT_FOUND"
                      (id_detail (strconv.ParseInt_value
                                    (payload_string (c_Payload cmd) "id"))) ])
               (idempotency_keys (tables db)))
            (next_id db),
       [ (if d_send_ok d then Produced else ProduceFailed)
           (mkProducerMessage ackTopic (cm_Key (d_msg d))
              (mkAck (c_TraceID cmd) "FAILURE" "" ∅
                 (Some (mkError "NOT_FOUND"
                          (id_detail (strconv.ParseInt_value
                                        (payload_string (c_Payload cmd) "id")))))) []);
         Marked (cm_Offset (d_msg d)) ])
    else
      (mkDB (mkTables
               (<[ strconv.ParseInt_value (payload_string (c_Payload cmd) "id")
                   := payload_string (c_Payload cmd) "message" ]> (messages (tables db)))
               (saga_log (tables db) ++
                  [ mkSagaRow (c_TraceID cmd) "UpdateMessage" "SUCCESS" "" "" ])
               (<[ idem_key (d_msg d) cmd := mkIdemRow "SUCCESS" (c_TraceID cmd) ]>
                  (idempotency_keys (tables db))))
            (next_id db),
       [ (if d_send_ok d then Produced else ProduceFailed)
           (mkProducerMessage ackTopic (cm_Key (d_msg d))
              (mkAck (c_TraceID cmd) "SUCCESS" "MessageUpdated"
                 (<[ "message" := AString (payload_string (c_Payload cmd) "message") ]>
                    {[ "id" := AInt64 (strconv.ParseInt_value
                                         (payload_string (c_Payload cmd) "id")) ]})
                 None) []);
         Marked (cm_Offset (d_msg d)) ]).
Proof.
  intros Hdec Hcmd Hf Hfresh Hrow. unfold consume_one. rewrite Hdec, Hf.
  unfold withTx, tx_body, checkIdempotent, dispatch, exec_update, logSaga, markIdempotent.
  destruct db as [t n]. simpl in *.
  rewrite bool_decide_eq_false_2 by (rewrite Hfresh; by intros [? ?]).
  rewrite Hcmd, Hrow. simpl.
  case_decide; simpl; [by destruct (d_send_ok d)|].
  rewrite Hfresh. by destruct (d_send_ok d).
Qed.

(** What a Create stored, a Read of the id it answered with gives back:
    on a healthy database, a Create and then a Read of the new id, under
    two fresh keys, are acked with the same id and message. *)
Theorem create_then_read (db : DB) (d1 d2 : Delivery) (c1 c2 : Command) :
  unmarshalCommand (cm_Value (d_msg d1)) = Some c1 -> c_Command c1 = "Create" ->
  unmarshalCommand (cm_Value (d_msg d2)) = Some c2 -> c_Command c2 = "Read" ->
  d_faults d1 = no_faults -> d_faults d2 = no_faults ->
  idempotency_keys (tables db) !! idem_key (d_msg d1) c1 = None ->
  idempotency_keys (tables db) !! idem_key (d_msg d2) c2 = None ->
  idem_key (d_msg d1) c1 <> idem_key (d_msg d2) c2 ->
  strconv.ParseInt_value (payload_string (c_Payload c2) "id") = next_id db ->
  map pm_Value (ack_attempts (ConsumeClaim unmarshalCommand ackTopic db [ d1; d2 ]).2)
  = [ mkAck (c_TraceID c1) "SUCCESS" "MessageCreated"
        (<[ "message" := AString (payload_string (c_Payload c1) "message") ]>
           {[ "id" := AInt64 (next_id db) ]}) None;
      mkAck (c_TraceID c2) "SUCCESS" "MessageRead"
        (<[ "message" := AString (payload_string (c_Payload c1) "message") ]>
           {[ "id" := AInt64 (next_id db) ]}) None ].
Proof.
  intros Hd1 Hc1 Hd2 Hc2 Hf1 Hf2 Hk1 Hk2 Hne Hid.
  cbn [ConsumeClaim]. unfold consume_one. rewrite Hd1, Hd2, Hf1, Hf2.
  unfold withTx, tx_body, checkIdempotent, dispatch, exec_insert, query_message, logSaga,
    markIdempotent.
  destruct db as [t n]. simpl in *.
  rewrite bool_decide_eq_false_2 by (rewrite Hk1; by intros [? ?]).
  rewrite Hc1. simpl. rewrite Hk1. simpl.
  rewrite lookup_insert_ne by done.
  rewrite bool_decide_eq_false_2 by (rewrite Hk2; by intros [? ?]).
  rewrite Hc2. simpl. rewrite Hid, lookup_insert_eq. simpl.
  by destruct (d_send_ok d1), (d_send_ok d2).
Qed.

End WorkerClaimProps.

(** One Create on the empty database. *)
Lemma claim_keeps_ids_below_counter_witness :
  ids_below_counter
    (Worker.ConsumeClaim Samples.unmarshalCommand "messages.acks" Samples.empty_db
       [ Samples.delivery 0 "k1" Samples.create_raw Worker.no_faults true ]).1
  /\ Worker.next_id Samples.empty_db
     <= Worker.next_id
          (Worker.ConsumeClaim Samples.unmarshalCommand "messages.acks" Samples.empty_db
             [ Samples.delivery 0 "k1" Samples.create_raw Worker.no_faults true ]).1
  /\ Worker.messages
       (Worker.tables
          (Worker.ConsumeClaim Samples.unmarshalCommand "messages.acks" Samples.empty_db
             [ Samples.delivery 0 "k1" Samples.create_raw Worker.no_faults true ]).1)
       !! Worker.next_id
            (Worker.ConsumeClaim Samples.unmarshalCommand "messages.acks" Samples.empty_db
               [ Samples.delivery 0 "k1" Samples.create_raw Worker.no_faults true ]).1
     = None.
Proof.
  apply (claim_keeps_ids_below_counter Samples.unmarshalCommand "messages.acks"
           Samples.empty_db
           [ Samples.delivery 0 "k1" Samples.create_raw Worker.no_faults true ]).
  apply map_Forall_empty.
Defined.

(** The ack of an Archive command. *)
Lemma ack_status_goes_with_error_witness :
  ((a_Status (mkAck "t-archive" "FAILURE" "" ∅
                (Some (mkError "UNSUPPORTED" "unknown command"))) = "SUCCESS"
    /\ a_Error (mkAck "t-archive" "FAILURE" "" ∅
                  (Some (mkError "UNSUPPORTED" "unknown command"))) = None)
   \/ (a_Status (mkAck "t-archive" "FAILURE" "" ∅
                   (Some (mkError "UNSUPPORTED" "unknown command"))) = "FAILURE"
       /\ exists c dt,
           a_Error (mkAck "t-archive" "FAILURE" "" ∅
                      (Some (mkError "UNSUPPORTED" "unknown command")))
           = Some (mkError c dt)
           /\ c ∈ [ "DB_ERROR"; "NOT_FOUND"; "UNSUPPORTED"; "INTERNAL" ])).
Proof.
  apply (ack_status_goes_with_error Samples.unmarshalCommand "messages.acks"
           Samples.empty_db
           (Samples.delivery 0 "k1" Samples.archive_raw Worker.no_faults true)
           (mkProducerMessage "messages.acks" "k1"
              (mkAck "t-archive" "FAILURE" "" ∅
                 (Some (mkError "UNSUPPORTED" "unknown command"))) [])).
  vm_compute. constructor.
Defined.

(** An Update of row 999 to the text it already has. *)
Lemma update_of_existing_id_witness :
  Worker.consume_one Samples.unmarshalCommand "messages.acks"
    (Worker.mkDB (Worker.mkTables {[ 999 := "x" ]} [] ∅) 1000)
    (Samples.delivery 0 "k2" Samples.update_raw Worker.no_faults true)
  = (Worker.mkDB
       (Worker.mkTables {[ 999 := "x" ]}
          [ Worker.mkSagaRow "t-update" "UpdateMessage" "FAILURE" "NOT_FOUND" "id=999" ] ∅)
       1000,
     [ Worker.Produced
         (mkProducerMessage "messages.acks" "k2"
            (mkAck "t-update" "FAILURE" "" ∅ (Some (mkError "NOT_FOUND" "id=999"))) []);
       Worker.Marked 0 ]).
Proof.
  etrans.
  - apply (update_of_existing_id Samples.unmarshalCommand "messages.acks"
             (Worker.mkDB (Worker.mkTables {[ 999 := "x" ]} [] ∅) 1000)
             (Samples.delivery 0 "k2" Samples.update_raw Worker.no_faults true)
             (Samples.command_of "t-update" "Update"
                [ ("id", AString "999"); ("message", AString "x") ])
             "x");
      reflexivity.
  - reflexivity.
Defined.

(** A Create of hello on the empty database and a Read of id 1. *)
Lemma create_then_read_witness :
  map pm_Value
    (ack_attempts
       (Worker.ConsumeClaim MoreSamples.unmarshalCommand "messages.acks" Samples.empty_db
          [ Worker.mkDelivery
              (mkConsumerMessage "messages.commands" 0 "k1"
                 (MoreSamples.marshalCommand
                    (mkCommand "t-create" "Create" "Message"
                       {[ "message" := AString "hello" ]})) [])
              Worker.no_faults true;
            Worker.mkDelivery
              (mkConsumerMessage "messages.commands" 1 "k2"
                 (MoreSamples.marshalCommand
                    (mkCommand "t-read-1" "Read" "Message" {[ "id" := AString "1" ]})) [])
              Worker.no_faults true ]).2)
  = [ mkAck "t-create" "SUCCESS" "MessageCreated"
        (<[ "message" := AString "hello" ]> {[ "id" := AInt64 1 ]}) None;
      mkAck "t-read-1" "SUCCESS" "MessageRead"
        (<[ "message" := AString "hello" ]> {[ "id" := AInt64 1 ]}) None ].
Proof.
  etrans.
  - apply (create_then_read MoreSamples.unmarshalCommand "messages.acks" Samples.empty_db
             (Worker.mkDelivery
                (mkConsumerMessage "messages.commands" 0 "k1"
                   (MoreSamples.marshalCommand
                      (mkCommand "t-create" "Create" "Message"
                         {[ "message" := AString "hello" ]})) [])
                Worker.no_faults true)
             (Worker.mkDelivery
                (mkConsumerMessage "messages.commands" 1 "k2"
                   (MoreSamples.marshalCommand
                      (mkCommand "t-read-1" "Read" "Message" {[ "id" := AString "1" ]})) [])
                Worker.no_faults true)
             (mkCommand "t-create" "Create" "Message" {[ "message" := AString "hello" ]})
             (mkCommand "t-read-1" "Read" "Message" {[ "id" := AString "1" ]}));
      try reflexivity; discriminate.
  - reflexivity.
Defined.

(** ** The result cache between the ack consumer and the sweeper *)

Section CacheProps.

Import Gateway.

Variable unmarshalAck : string -> option Ack.

Lemma sweep_expires_lookup (clock : Z) (c : Cache) (id : string) :
  resultExpires (sweep clock c) !! id
  = match resultExpires c !! id with
    | Some t => if t <? clock then None else Some t
    | None => None
    end.
Proof.
  unfold sweep. simpl. destruct (resultExpires c !! id) as [t|] eqn:He.
  - destruct (Z.ltb_spec t clock).
    + apply map_lookup_filter_None. right. intros t' He'. simpl. simplify_eq. lia.
    + apply map_lookup_filter_Some. split; [done|simpl; lia].
  - apply map_lookup_filter_None. by left.
Qed.

Lemma sweep_cache_lookup (clock : Z) (c : Cache) (id : string) :
  resultCache (sweep clock c) !! id
  = match resultCache c !! id with
    | Some a =>
        match resultExpires c !! id with
        | Some t => if t <? clock then None else Some a
        | None => Some a
        end
    | None => None
    end.
Proof.
  unfold sweep. simpl. destruct (resultCache c !! id) as [a|] eqn:Ha.
  - destruct (resultExpires c !! id) as [t|] eqn:He.
    + destruct (Z.ltb_spec t clock).
      * apply map_lookup_filter_None. right. intros a' _ Hdead. simpl in Hdead.
        apply map_lookup_filter_None in Hdead as [Hnone|Hno]; [congruence|].
        by apply (Hno t He).
      * apply map_lookup_filter_Some. split; [done|]. simpl.
        apply map_lookup_filter_None. right. intros t' He'. simpl. simplify_eq. lia.
    + apply map_lookup_filter_Some. split; [done|]. simpl.
      apply map_lookup_filter_None. by left.
  - apply map_lookup_filter_None. by left.
Qed.

Lemma cache_wf_lookup (c : Cache) :
  cache_wf c <->
  (forall id, is_Some (resultCache c !! id) <-> is_Some (resultExpires c !! id))
  /\ (forall id a, resultCache c !! id = Some a -> a_TraceID a = id /\ id <> "").
Proof.
  unfold cache_wf. rewrite set_eq. by setoid_rewrite elem_of_dom.
Qed.

Lemma putAck_wf (t : Z) (a : Ack) (c : Cache) :
  a_TraceID a <> "" -> cache_wf c -> cache_wf (putAck t a c).
Proof.
  intros Hne [Hdom Hall]. unfold cache_wf, putAck. simpl. split.
  - by rewrite !dom_insert_L, Hdom.
  - by apply map_Forall_insert_2.
Qed.

Lemma sweep_wf (clock : Z) (c : Cache) : cache_wf c -> cache_wf (sweep clock c).
Proof.
  rewrite !cache_wf_lookup. intros [Hdom Hall]. split.
  - intros id. rewrite sweep_cache_lookup, sweep_expires_lookup.
    specialize (Hdom id).
    rewrite <- !not_eq_None_Some in Hdom |- *.
    destruct (resultCache c !! id) as [a|], (resultExpires c !! id) as [t|];
      try destruct (t <? clock); intuition congruence.
  - intros id a. rewrite sweep_cache_lookup.
    destruct (resultCache c !! id) as [a'|] eqn:Ha; [|done].
    destruct (resultExpires c !! id) as [t|]; try destruct (t <? clock); try done;
      intros [= <-]; by apply Hall.
Qed.

Lemma cache_step_wf (st : Cache * Session) (op : CacheStep) :
  cache_wf st.1 -> cache_wf (cache_step unmarshalAck st op).1.
Proof.
  intros Hwf. destruct op as [t msg|t]; simpl; [|by apply sweep_wf].
  unfold accepted. destruct (unmarshalAck (cm_Value msg)) as [a|]; [|done].
  case_decide; [done|]. simpl. by apply putAck_wf.
Qed.

(** Whatever the ack consumer and the sweeper have done since the start,
    the two maps of the cache have the same keys and every ack is filed
    under its own, non-empty trace id. *)
Lemma cache_run_wf (ops : list CacheStep) : cache_wf (cache_run unmarshalAck ops).1.
Proof.
  induction ops as [|op ops IH] using rev_ind.
  - split; [done|]. apply map_Forall_empty.
  - unfold cache_run in *. rewrite foldl_app. simpl. by apply cache_step_wf.
Qed.

(** Whatever the ack consumer and the sweeper have done since the start,
    a lookup under an id answers with an ack of that trace id, and no
    lookup under the empty id answers with one. *)
Theorem cached_ack_has_the_id_asked_for (ops : list CacheStep) (clock : Z) (id : string)
    (a : Ack) :
  getAck clock id (cache_run unmarshalAck ops).1 = Some a ->
  a_TraceID a = id /\ id <> "".
Proof.
  destruct (proj1 (cache_wf_lookup _) (cache_run_wf ops)) as [_ Hall].
  unfold getAck. destruct (resultCache _ !! id) as [a'|] eqn:Ha; [|done].
  destruct (expired _ _ _); [done|]. intros [= <-]. by apply Hall.
Qed.

(** After a pass of the sweeper the cache holds the entries that a lookup
    at the clock reading of the pass reports, and no other: nothing
    expired stays behind, whatever was done before. *)
Theorem sweep_leaves_the_unexpired_entries (ops : list CacheStep) (clock : Z)
    (id : string) :
  resultCache (sweep clock (cache_run unmarshalAck ops).1) !! id
  = getAck clock id (cache_run unmarshalAck ops).1.
Proof.
  destruct (proj1 (cache_wf_lookup _) (cache_run_wf ops)) as [Hdom _].
  rewrite sweep_cache_lookup. unfold getAck, expired. specialize (Hdom id).
  rewrite <- !not_eq_None_Some in Hdom.
  destruct (resultCache _ !! id) as [a|]; [|done].
  destruct (resultExpires _ !! id) as [t|]; [done|].
  intuition congruence.
Qed.

Lemma getAck_putAck_other (t clock : Z) (a : Ack) (c : Cache) (id : string) :
  a_TraceID a <> id -> getAck clock id (putAck t a c) = getAck clock id c.
Proof.
  intros Hne. unfold getAck, expired, putAck. simpl.
  by rewrite !lookup_insert_ne.
Qed.

(** After a claim, a lookup under an id answers with the ack of the last
    record of the claim accepted under that id, until the TTL counted from
    the reading of that record is over, whatever its status and whatever
    was cached before; when the claim has no such record the lookup
    answers as it did before the claim. *)
Theorem claim_caches_latest_ack (c : Cache) (s : Session)
    (input : list (Z * ConsumerMessage)) (clock : Z) (id : string) :
  getAck clock id (ConsumeClaim unmarshalAck (c, s) input).1
  = match latest_ack unmarshalAck id input with
    | Some (t, a) => if t + cacheTTL <? clock then None else Some a
    | None => getAck clock id c
    end.
Proof.
  induction input as [|[t msg] input IH] using rev_ind; [done|].
  unfold ConsumeClaim, latest_ack in *. rewrite !foldl_app. simpl.
  destruct (accepted unmarshalAck msg) as [a|]; [|exact IH].
  simpl. case_decide as Hid.
  - subst id. unfold getAck, expired, putAck. simpl. by rewrite !lookup_insert_eq.
  - rewrite getAck_putAck_other by done. exact IH.
Qed.

End CacheProps.

(** The ack of a Create, read by the ack consumer at time 0 and looked up
    at time 1. *)
Lemma cached_ack_has_the_id_asked_for_witness :
  a_TraceID Samples.created_ack = "t-create" /\ "t-create" <> "".
Proof.
  apply (cached_ack_has_the_id_asked_for Samples.unmarshalAck
           [ AckRead 0 (Samples.ack_record 0
                          (Samples.json_ack Samples.created_ack Samples.created_fields)) ]
           1 "t-create" Samples.created_ack).
  reflexivity.
Defined.

(** ** The processor, the retry worker and the topics they share *)

Section RoutingProps.

Import Processor.

Lemma parseAttempt_headers_skip (hs tl : list RecordHeader) :
  has_attempt hs = false ->
  parseAttempt_headers (hs ++ tl) = parseAttempt_headers tl.
Proof.
  induction hs as [|h hs IH]; cbn [app parseAttempt_headers has_attempt existsb]; [done|].
  intros H. apply orb_false_iff in H as [H1 H2]. specialize (IH H2).
  case_decide as Hk; [|done].
  destruct (strconv.Atoi (hValue h)) as [n|] eqn:Hv; [|done].
  rewrite bool_decide_eq_true_2 in H1 by done.
  rewrite bool_decide_eq_true_2 in H1 by (rewrite ?Hv; by eexists). done.
Qed.

Lemma businessLogic_value (m1 m2 : ConsumerMessage) :
  cm_Value m1 = cm_Value m2 -> businessLogic m1 = businessLogic m2.
Proof. unfold businessLogic. by intros ->. Qed.

Lemma publishNextRetry_topic (msg : ConsumerMessage) (err : string)
    (out : ProducerMessage string) :
  publishNextRetry msg err = Ret out ->
  pm_Value out = cm_Value msg
  /\ (pm_Topic out = DLQTopic
      \/ exists st, st ∈ Retry.Stages /\ pm_Topic out = Retry.Topic st).
Proof.
  unfold publishNextRetry, Retry.Next.
  destruct (parseAttempt msg <? Z.of_nat (length Retry.Stages)).
  - destruct (parseAttempt msg <? 0); [done|].
    destruct (Retry.Stages !! Z.to_nat (parseAttempt msg)) as [st|] eqn:Hst; [|done].
    intros [= <-]. split; [done|]. right. exists st. split; [|done].
    by eapply list_elem_of_lookup_2.
  - intros [= <-]. split; [done|]. by left.
Qed.

(** A failing record that carries no attempt header that parses, such as
    one fresh from a producer: the processor sends it to the 5 s topic with
    the attempt 1 (and marks it when the send succeeds); the retry worker
    holds it for 5 s and sends it back to the main topic with the same key,
    value and headers, where the processor reads the attempt 1. *)
Theorem first_failure_goes_to_first_stage (send_ok : bool) (msg : ConsumerMessage)
    (err : string) (off off' : Z) :
  businessLogic msg = Some err ->
  has_attempt (cm_Headers msg) = false ->
  handle send_ok msg
  = (if send_ok then Forwarded else PublishFailed)
      (mkProducerMessage "events.v1.retry.5s" (cm_Key msg) (cm_Value msg)
         (cm_Headers msg ++ [ mkHeader "x-retry-attempt" "1"; mkHeader "x-error" err ]))
  /\ Topics.requeue_one true
       (delivered off
          (mkProducerMessage "events.v1.retry.5s" (cm_Key msg) (cm_Value msg)
             (cm_Headers msg ++ [ mkHeader "x-retry-attempt" "1"; mkHeader "x-error" err ])))
     = (5 * Retry.second,
        mkProducerMessage "events.v1" (cm_Key msg) (cm_Value msg)
          (cm_Headers msg ++ [ mkHeader "x-retry-attempt" "1"; mkHeader "x-error" err ]),
        true)
  /\ parseAttempt
       (delivered off'
          (mkProducerMessage "events.v1" (cm_Key msg) (cm_Value msg)
             (cm_Headers msg ++ [ mkHeader "x-retry-attempt" "1"; mkHeader "x-error" err ])))
     = 1.
Proof.
  intros Hfail Hnone.
  assert (Hatt : parseAttempt msg = 0).
  { unfold parseAttempt. rewrite <- (app_nil_r (cm_Headers msg)).
    by rewrite parseAttempt_headers_skip. }
  split; [|split].
  - unfold handle, publishNextRetry. rewrite Hfail, Hatt. by destruct send_ok.
  - reflexivity.
  - unfold parseAttempt, delivered. simpl. by rewrite parseAttempt_headers_skip.
Qed.

(** A failing record whose first attempt header that parses holds a
    negative number makes the processor panic in [retry.Next]: nothing is
    published and the record is not marked. *)
Theorem negative_attempt_crashes (send_ok : bool) (msg : ConsumerMessage) (err : string) :
  businessLogic msg = Some err ->
  parseAttempt msg < 0 ->
  handle send_ok msg = Crashed "index out of range".
Proof.
  intros Hfail Hneg. unfold handle, publishNextRetry, Retry.Next. rewrite Hfail.
  change (Z.of_nat (length Retry.Stages)) with 3.
  rewrite (proj2 (Z.ltb_lt (parseAttempt msg) 3)) by lia.
  by rewrite (proj2 (Z.ltb_lt (parseAttempt msg) 0)) by lia.
Qed.

(** Every record the processor forwards goes to a topic that cmd/admin
    creates.  It is either the DLQ, to which neither the processor nor the
    retry worker subscribes, or the topic of a retry stage: then the retry
    worker subscribes to it and holds the record for the delay of that
    stage, and what it sends back goes to the topic the processor
    subscribes to, where the record fails again. *)
Theorem forwarded_records_are_routed (send_ok : bool) (msg : ConsumerMessage)
    (out : ProducerMessage string) (off off' : Z) :
  handle send_ok msg = Forwarded out ->
  is_Some (Topics.topics !! pm_Topic out)
  /\ ((pm_Topic out = DLQTopic
       /\ (pm_Topic out ∉ Topics.retry_subscription)
       /\ (pm_Topic out ∉ Topics.processor_subscription))
      \/ (exists st, st ∈ Retry.Stages
                     /\ pm_Topic out = Retry.Topic st
                     /\ pm_Topic out ∈ Topics.retry_subscription
                     /\ (Topics.requeue_one true (delivered off out)).1.1 = Retry.Delay st
                     /\ pm_Topic (Topics.requeue_one true (delivered off out)).1.2
                        ∈ Topics.processor_subscription
                     /\ businessLogic
                          (delivered off' (Topics.requeue_one true (delivered off out)).1.2)
                        = businessLogic msg
                     /\ is_Some (businessLogic msg))).
Proof.
  unfold handle. destruct (businessLogic msg) as [err|] eqn:Hfail; [|done].
  destruct (publishNextRetry msg err) as [out'|r] eqn:Hpub; [|done].
  destruct send_ok; [|done]. intros [= <-].
  apply publishNextRetry_topic in Hpub as [Hval [Hdlq|(st & Hst & Htopic)]].
  - rewrite Hdlq. split; [by vm_compute; eexists|]. left.
    split; [done|]. unfold Topics.retry_subscription, Topics.processor_subscription.
    rewrite !elem_of_cons, !elem_of_nil. split; intros H; by intuition.
  - assert (Hcases : st = Retry.mkStage "events.v1.retry.5s" (5 * Retry.second)
                     \/ st = Retry.mkStage "events.v1.retry.30s" (30 * Retry.second)
                     \/ st = Retry.mkStage "events.v1.retry.2m" (2 * Retry.minute)).
    { unfold Retry.Stages in Hst. rewrite !elem_of_cons, elem_of_nil in Hst. tauto. }
    split.
    + rewrite Htopic. destruct Hcases as [->|[->| ->]]; vm_compute; by eexists.
    + right. exists st. split; [done|]. split; [done|].
      split; [|split; [|split; [|split]]].
      * rewrite Htopic. unfold Topics.retry_subscription.
        rewrite !elem_of_cons. destruct Hcases as [->|[->| ->]]; simpl; tauto.
      * unfold Topics.requeue_one, delivered. simpl. rewrite Htopic.
        by destruct Hcases as [->|[->| ->]].
      * unfold Topics.processor_subscription. simpl. apply list_elem_of_singleton. done.
      * rewrite <- Hfail. apply businessLogic_value. simpl. done.
      * by eexists.
Qed.

End RoutingProps.

(** The failing record of the demo producer on its first delivery. *)
Lemma first_failure_goes_to_first_stage_witness :
  Processor.handle true Pipeline.demo_failing
  = Processor.Forwarded
      (mkProducerMessage "events.v1.retry.5s" "user-42" "fail: simulate downstream error"
         [ mkHeader "content-type" "text/plain"; mkHeader "x-retry-attempt" "1";
           mkHeader "x-error" "downstream: simulated failure" ]).
Proof.
  destruct (first_failure_goes_to_first_stage true Pipeline.demo_failing
              "downstream: simulated failure" 0 0 eq_refl eq_refl) as [H _].
  exact H.
Defined.

(** A failing record whose attempt header says -1. *)
Lemma negative_attempt_crashes_witness :
  Processor.handle true
    (mkConsumerMessage "events.v1" 0 "user-42" "fail: simulate downstream error"
       [ mkHeader "x-retry-attempt" "-1" ])
  = Processor.Crashed "index out of range".
Proof.
  apply (negative_attempt_crashes true
           (mkConsumerMessage "events.v1" 0 "user-42" "fail: simulate downstream error"
              [ mkHeader "x-retry-attempt" "-1" ])
           "downstream: simulated failure");
    reflexivity.
Defined.

(** The first retry record of the failing record of the demo producer. *)
Lemma forwarded_records_are_routed_witness :
  is_Some (Topics.topics !! "events.v1.retry.5s").
Proof.
  destruct (forwarded_records_are_routed true Pipeline.demo_failing
              (mkProducerMessage "events.v1.retry.5s" "user-42"
                 "fail: simulate downstream error"
                 [ mkHeader "content-type" "text/plain"; mkHeader "x-retry-attempt" "1";
                   mkHeader "x-error" "downstream: simulated failure" ])
              0 0 eq_refl) as [H _].
  exact H.
Defined.

(** ** The steps of the saga lab and its DLQ replayer *)

Section SagaLabMore.

Import SagaLab.

Variable unmarshalEvent : string -> option Event.
Variable marshalEvent : Event -> string.


(** A record that step 5 in the mode fatal sent to the DLQ, replayed while
    the step is still in that mode: the replayer commits its offset and
    writes it back to the input topic of the step with the key, value and
    headers of the DLQ record; the step, reading it there, sends the same
    event to the DLQ again, with one more x-saga-id and one more
    x-original-topic header than before. *)
Theorem fatal_record_replayed_lands_in_dlq_again (env : StepEnv) (renv : ReplayEnv)
    (coin coin' : bool) (m : ConsumerMessage) (evt : Event) (off off' : Z) :
  step_env_ok env = true ->
  strconv.Atoi_value (STEP env) = 5 -> FAIL_MODE env = "fatal" ->
  unmarshalEvent (cm_Value m) = Some evt ->
  unmarshalEvent (marshalEvent evt) = Some evt ->
  SAGA_ID_FILTER renv = "" \/ SAGA_ID_FILTER renv = SagaID evt ->
  step_iter unmarshalEvent env coin m
  = ToDLQ (mkProducerMessage (DLQ_TOPIC env) (cm_Key m) evt
             (cm_Headers m ++ [ mkHeader "x-saga-id" (SagaID evt);
                                mkHeader "x-original-topic" (TOPIC_IN env) ]))
  /\ replay_iter unmarshalEvent renv true
       (on_wire marshalEvent off
          (mkProducerMessage (DLQ_TOPIC env) (cm_Key m) evt
             (cm_Headers m ++ [ mkHeader "x-saga-id" (SagaID evt);
                                mkHeader "x-original-topic" (TOPIC_IN env) ])))
     = [ Committed off;
         Replayed
           (mkProducerMessage (TOPIC_IN env) (cm_Key m) (marshalEvent evt)
              (cm_Headers m ++ [ mkHeader "x-saga-id" (SagaID evt);
                                 mkHeader "x-original-topic" (TOPIC_IN env) ])) ]
  /\ step_iter unmarshalEvent env coin'
       (delivered off'
          (mkProducerMessage (TOPIC_IN env) (cm_Key m) (marshalEvent evt)
             (cm_Headers m ++ [ mkHeader "x-saga-id" (SagaID evt);
                                mkHeader "x-original-topic" (TOPIC_IN env) ])))
     = ToDLQ (mkProducerMessage (DLQ_TOPIC env) (cm_Key m) evt
                (cm_Headers m ++ [ mkHeader "x-saga-id" (SagaID evt);
                                   mkHeader "x-original-topic" (TOPIC_IN env);
                                   mkHeader "x-saga-id" (SagaID evt);
                                   mkHeader "x-original-topic" (TOPIC_IN env) ])).
Proof.
  intros Henv Hstep Hmode Hdec Hround Hfilter.
  pose proof (step_env_ok_topic_in env Henv) as Hin.
  assert (Hproc : forall c, Process 5 "fatal" c evt = (evt, true)) by (by intros []).
  split; [|split].
  - unfold step_iter. rewrite Hdec, Hstep, Hmode, Hproc. simpl.
    by rewrite <- app_assoc.
  - unfold replay_iter, on_wire. cbn [cm_Value cm_Offset pm_Value].
    rewrite Hround.
    assert (negb (bool_decide (SAGA_ID_FILTER renv = ""))
            && negb (bool_decide (SagaID evt = SAGA_ID_FILTER renv)) = false) as ->.
    { destruct Hfilter as [->| ->]; [done|].
      rewrite (bool_decide_eq_true_2 (SagaID evt = SagaID evt)) by done.
      apply andb_false_r. }
    unfold replay_target. cbn [cm_Headers pm_Headers].
    replace (cm_Headers m ++ [ mkHeader "x-saga-id" (SagaID evt);
                               mkHeader "x-original-topic" (TOPIC_IN env) ])
      with ((cm_Headers m ++ [ mkHeader "x-saga-id" (SagaID evt) ])
              ++ [ mkHeader HeaderOriginalTopic (TOPIC_IN env) ])
      by (by rewrite <- app_assoc).
    rewrite last_header_snoc. cbn [default].
    rewrite bool_decide_eq_false_2 by done. reflexivity.
  - unfold step_iter, delivered. cbn [cm_Value pm_Value].
    rewrite Hround, Hstep, Hmode, Hproc. simpl.
    by rewrite <- !app_assoc.
Qed.

(** An x-original-topic header with an empty value overrides REPLAY_TARGET:
    when the last such header of a DLQ record is empty, the replayer
    commits the offset and replays nothing, whatever the default target. *)
Theorem empty_original_topic_header_blocks_replay (renv : ReplayEnv) (write_ok : bool)
    (m : ConsumerMessage) :
  last_header HeaderOriginalTopic (cm_Headers m) = Some "" ->
  replay_iter unmarshalEvent renv write_ok m = [ Committed (cm_Offset m) ].
Proof.
  intros Hlast. unfold replay_iter, replay_target. rewrite Hlast. simpl.
  destruct (unmarshalEvent (cm_Value m)); [|done].
  by destruct (negb _ && negb _).
Qed.

End SagaLabMore.

(** The record of saga-1 at step 5 in the mode fatal, replayed with the
    filter saga-1. *)
Lemma fatal_record_replayed_lands_in_dlq_again_witness :
  SagaLab.step_iter Samples.unmarshalEvent Samples.step5_env true
    (delivered 8
       (mkProducerMessage "saga.step4.completed" "saga-1" (Samples.json_event "saga-1" 5)
          [ mkHeader "x-saga-id" "saga-1"; mkHeader "x-saga-id" "saga-1";
            mkHeader "x-original-topic" "saga.step4.completed" ]))
  = SagaLab.ToDLQ
      (mkProducerMessage "saga.dlq" "saga-1" (Samples.event_of "saga-1" 5)
         [ mkHeader "x-saga-id" "saga-1"; mkHeader "x-saga-id" "saga-1";
           mkHeader "x-original-topic" "saga.step4.completed";
           mkHeader "x-saga-id" "saga-1";
           mkHeader "x-original-topic" "saga.step4.completed" ]).
Proof.
  destruct (fatal_record_replayed_lands_in_dlq_again Samples.unmarshalEvent
              MoreSamples.marshalEvent Samples.step5_env Samples.replay_env true true
              Samples.step5_input (Samples.event_of "saga-1" 5) 7 8
              eq_refl eq_refl eq_refl eq_refl eq_refl (or_intror eq_refl)) as (_ & _ & H).
  exact H.
Defined.

(** A DLQ record whose x-original-topic header is empty, with a default
    target configured. *)
Lemma empty_original_topic_header_blocks_replay_witness :
  SagaLab.replay_iter Samples.unmarshalEvent
    (SagaLab.mkReplayEnv "kafka:9092" "saga.dlq" "dlq-replayer" "saga.step4.completed" "")
    true
    (mkConsumerMessage "saga.dlq" 4 "saga-1" (Samples.json_event "saga-1" 5)
       [ mkHeader "x-saga-id" "saga-1"; mkHeader "x-original-topic" "" ])
  = [ SagaLab.Committed 4 ].
Proof.
  apply (empty_original_topic_header_blocks_replay Samples.unmarshalEvent
           (SagaLab.mkReplayEnv "kafka:9092" "saga.dlq" "dlq-replayer"
              "saga.step4.completed" "")
           true
           (mkConsumerMessage "saga.dlq" 4 "saga-1" (Samples.json_event "saga-1" 5)
              [ mkHeader "x-saga-id" "saga-1"; mkHeader "x-original-topic" "" ])).
  reflexivity.
Defined.

(** ** The header carrier of the tracing package *)

Section TracingProps.

Import Tracing.

Variable ToLower : string -> string.

Lemma first_match_replaced (key val : string) (hs hs' : list RecordHeader) :
  replace_first ToLower key val hs = Some hs' ->
  exists k, first_match ToLower key hs' = Some (mkHeader k val)
            /\ map hKey hs' = map hKey hs
            /\ is_Some (first_match ToLower key hs).
Proof.
  revert hs'. induction hs as [|h hs IH]; intros hs'; simpl; [done|].
  destruct (matches ToLower key h) eqn:Hm.
  - intros [= <-]. exists (hKey h). simpl.
    change (matches ToLower key (mkHeader (hKey h) val)) with (matches ToLower key h).
    rewrite Hm. by eauto.
  - destruct (replace_first ToLower key val hs) as [hs1|]; [|done].
    intros [= <-]. destruct (IH hs1 eq_refl) as (k & Hf & Hk & Hs).
    exists k. simpl. rewrite Hm, Hk. done.
Qed.

Lemma first_match_not_replaced (key val : string) (hs : list RecordHeader) :
  replace_first ToLower key val hs = None ->
  first_match ToLower key hs = None
  /\ first_match ToLower key (hs ++ [ mkHeader key val ]) = Some (mkHeader key val).
Proof.
  induction hs as [|h hs IH]; simpl.
  - intros _. split; [done|]. unfold matches. simpl. by rewrite bool_decide_eq_true_2.
  - destruct (matches ToLower key h) eqn:Hm; [done|].
    destruct (replace_first ToLower key val hs); [done|]. intros _. by apply IH.
Qed.

Lemma first_match_other (key val key' : string) (hs : list RecordHeader) :
  ToLower key' <> ToLower key ->
  hValue <$> first_match ToLower key'
               (default (hs ++ [ mkHeader key val ]) (replace_first ToLower key val hs))
  = hValue <$> first_match ToLower key' hs.
Proof.
  intros Hne. induction hs as [|h hs IH]; simpl.
  - unfold matches. simpl. by rewrite bool_decide_eq_false_2.
  - destruct (matches ToLower key h) eqn:Hm; simpl.
    + change (matches ToLower key' (mkHeader (hKey h) val))
        with (matches ToLower key' h).
      destruct (matches ToLower key' h) eqn:Hm'; [|done].
      unfold matches in Hm, Hm'.
      apply bool_decide_eq_true_1 in Hm, Hm'. congruence.
    + destruct (replace_first ToLower key val hs) as [hs1|]; simpl in *;
        by destruct (matches ToLower key' h).
Qed.

(** [Get] reads what [Set] wrote: after [Set] of a key, [Get] of that key
    gives the value set, and [Get] of a key that differs from it beyond
    case gives what it gave before.  [Set] adds a header only when no key
    of the carrier is the key up to case, and does nothing on a nil
    carrier. *)
Theorem Get_reads_what_Set_wrote (hs : list RecordHeader) (key val key' : string) :
  Get ToLower (Set_ ToLower (Some hs) key val) key = val
  /\ (ToLower key' <> ToLower key ->
      Get ToLower (Set_ ToLower (Some hs) key val) key' = Get ToLower (Some hs) key')
  /\ Keys (Set_ ToLower (Some hs) key val)
     = Some (match first_match ToLower key hs with
             | Some _ => map hKey hs
             | None => map hKey hs ++ [ key ]
             end)
  /\ Set_ ToLower None key val = None
  /\ Get ToLower None key = "".
Proof.
  split; [|split; [|split; [|done]]].
  - unfold Get, Set_. destruct (replace_first ToLower key val hs) as [hs'|] eqn:Hr.
    + destruct (first_match_replaced _ _ _ _ Hr) as (k & -> & _). done.
    + destruct (first_match_not_replaced _ _ _ Hr) as [_ ->]. done.
  - intros Hne. pose proof (first_match_other key val key' hs Hne) as H.
    unfold Get, Set_.
    destruct (replace_first ToLower key val hs) as [hs'|]; simpl in H;
      destruct (first_match ToLower key' _), (first_match ToLower key' hs);
      simpl in *; congruence.
  - unfold Keys, Set_. simpl.
    destruct (replace_first ToLower key val hs) as [hs'|] eqn:Hr; simpl.
    + destruct (first_match_replaced _ _ _ _ Hr) as (k & _ & -> & [h ->]). done.
    + destruct (first_match_not_replaced _ _ _ Hr) as [-> _].
      by rewrite map_app.
Qed.

End TracingProps.
